(** * Tax-impact engine ([engine/tax_engine.py]): shallow embedding and proofs

    The engine multiplies a monthly income by twelve, short-circuits incomes
    at or below the 800000 exemption threshold, otherwise calls the two
    regime calculators, and assembles one result dictionary.  Python floats
    are IEEE-754 binary64 numbers; they are modelled with the executable
    specification of the Standard Library ([SpecFloat]), dictionaries with
    [gmap], exceptions with an error monad that also records which regime
    calculators were invoked. *)

From Stdlib Require Import ZArith Bool Floats.SpecFloat QArith Qminmax Lqa.
From stdpp Require Import gmap strings list fin_maps.

Local Open Scope Z_scope.

(** ** Python floats: IEEE-754 binary64 *)

Module PyFloat.

Definition prec : Z := 53.
Definition emax : Z := 1024.

Abbreviation float := spec_float.

(** [float(z)] for an integer literal; exact for every literal of the engine. *)
Definition of_Z (z : Z) : float := binary_normalize prec emax z 0 false.

Definition mul (x y : float) : float := SFmul prec emax x y.
Definition sub (x y : float) : float := SFsub prec emax x y.
Definition div (x y : float) : float := SFdiv prec emax x y.

(** Python's [x > y] on floats: false as soon as one side is NaN. *)
Definition gt (x y : float) : bool := SFltb y x.
Definition le (x y : float) : bool := SFleb x y.

Definition is_zero (x : float) : bool :=
  match x with S754_zero _ => true | _ => false end.

(** The sign bit, for everything but NaN. *)
Definition is_negative (x : float) : bool :=
  match x with
  | S754_zero s | S754_infinity s | S754_finite s _ _ => s
  | S754_nan => false
  end.

Definition negative_or_nan (x : float) : bool :=
  match x with
  | S754_nan => true
  | _ => is_negative x
  end.

Definition is_finite (x : float) : bool :=
  match x with
  | S754_zero _ | S754_finite _ _ _ => true
  | _ => false
  end.

(** Nearest integer to [m * 2^e], ties to even ([m], result non-negative). *)
Definition round_half_even (m e : Z) : Z :=
  match e with
  | Zneg p =>
      let d := Z.pow_pos 2 p in
      let q := m / d in
      let r := m mod d in
      match 2 * r ?= d with
      | Lt => q
      | Gt => q + 1
      | Eq => if Z.even q then q else q + 1
      end
  | _ => m * 2 ^ e
  end.

(** [round(x, 2)] on a float: CPython prints the exact binary value with two
    decimals, correctly rounded with ties to even, and reads the decimal
    string back, again correctly rounded.  NaN, infinities and zeros round
    to themselves; the sign survives a result of zero. *)
Definition round2 (x : float) : float :=
  match x with
  | S754_finite s m e =>
      match round_half_even (Zpos m * 100) e with
      | Zpos n => SFdiv prec emax (S754_finite s n 0) (S754_finite false 100 0)
      | _ => S754_zero s
      end
  | _ => x
  end.

(** The decimal literal [n / d] read as a float (one rounding). *)
Definition of_ratio (n d : Z) : float := div (of_Z n) (of_Z d).

End PyFloat.

(** ** Python values, exceptions and the call record *)

Module Py.
Import PyFloat.

(** A number is a float or an int: [percentage_change] is the int [0] when
    the current tax is not positive, a float otherwise. *)
Inductive number :=
| NFloat (x : float)
| NInt (z : Z).

#[warnings="-register-all"] Inductive pyval :=
| PNum (n : number)
| PStr (s : string)
| PDict (d : gmap string pyval).

(** What a regime calculator returns: the six numeric fields of
    [zero_tax_result], keyed by name. *)
Abbreviation regime_dict := (gmap string float).

Inductive exn :=
| KeyError (k : string)
| ZeroDivisionError
| InvalidInputError
| ConfigurationError.

Inductive result (A : Type) :=
| Ok (a : A)
| Raise (e : exn).
Arguments Ok {A} a.
Arguments Raise {A} e.

(** The only things the engine does besides arithmetic: calls into the two
    regime modules. *)
Inductive event :=
| Call2024 (gross_income : float)
| Call2026 (gross_income : float).

(** Computations: the calls made so far, and a value or the exception that
    stopped them. *)
Definition M (A : Type) : Type := list event * result A.

Definition ret {A} (a : A) : M A := ([], Ok a).
Definition raise {A} (e : exn) : M A := ([], Raise e).

Definition bind {A B} (c : M A) (k : A -> M B) : M B :=
  match c with
  | (t, Ok a) => let '(t', r) := k a in (t ++ t', r)
  | (t, Raise e) => (t, Raise e)
  end.

Definition calls {A} (c : M A) : list event := fst c.
Definition outcome {A} (c : M A) : result A := snd c.

(** [d[k]] *)
Definition getitem (d : regime_dict) (k : string) : M float :=
  match d !! k with
  | Some v => ret v
  | None => raise (KeyError k)
  end.

(** [x / y] on floats *)
Definition truediv (x y : float) : M float :=
  if is_zero y then raise ZeroDivisionError else ret (div x y).

(** [round(n, 2)]: an int is returned as it is. *)
Definition round_2 (n : number) : number :=
  match n with
  | NFloat x => NFloat (round2 x)
  | NInt z => NInt z
  end.

Definition float_val (x : float) : pyval := PNum (NFloat x).

(** [{"label": l, **d}]: the keys of [d] are written after the label, so a
    ["label"] among them would replace it. *)
Definition labelled (l : string) (d : regime_dict) : gmap string pyval :=
  (float_val <$> d) ∪ {[ "label"%string := PStr l ]}.

End Py.

Declare Scope py_scope.
Delimit Scope py_scope with py.
Notation "'let*' x ':=' c 'in' k" := (Py.bind c (fun x => k))
  (at level 10, x name, c at level 100, k at level 200,
   format "'[v' 'let*'  x  ':='  c  'in' '/' k ']'") : py_scope.

(** ** The impact engine *)

Module TaxEngine.
Import PyFloat Py.
Local Open Scope py_scope.
Local Open Scope string_scope.

Definition threshold : float := of_Z 800000.
Definition zero : float := S754_zero false.

(** The template used for low earners (lines 9-16). *)
Definition zero_tax_result (annual_income : float) : regime_dict :=
  {[ "gross_income" := annual_income;
     "taxable_income" := zero;
     "consolidated_relief" := zero;
     "annual_tax" := zero;
     "monthly_tax" := zero;
     "effective_rate" := zero ]}.

(** The values the two branches leave in the local variables. *)
Record locals := {
  current : regime_dict;
  proposed : regime_dict;
  annual_relief : float;
  monthly_relief : float;
  percentage_change : number
}.

Section Engine.
(** [engine/tax_rules_2024.py] and [engine/tax_rules_2026.py]: each maps a
    gross annual income to a regime dictionary, or raises. *)
Variable calculate_pita_2024 calculate_pita_2026 : float -> result regime_dict.

Definition call_2024 (g : float) : M regime_dict :=
  ([Call2024 g], calculate_pita_2024 g).
Definition call_2026 (g : float) : M regime_dict :=
  ([Call2026 g], calculate_pita_2026 g).

(** Lines 18-38. *)
Definition branches (annual_income : float) : M locals :=
  if gt annual_income threshold then
    let* current := call_2024 annual_income in
    let* proposed := call_2026 annual_income in
    let* ct := getitem current "annual_tax" in
    let* pt := getitem proposed "annual_tax" in
    let annual_relief := sub ct pt in
    let* monthly_relief := truediv annual_relief (of_Z 12) in
    let* guard := getitem current "annual_tax" in
    let* percentage_change :=
      if gt guard (of_Z 0) then
        let* den := getitem current "annual_tax" in
        let* q := truediv annual_relief den in
        ret (NFloat (mul q (of_Z 100)))
      else ret (NInt 0) in
    ret {| current := current; proposed := proposed;
           annual_relief := annual_relief;
           monthly_relief := monthly_relief;
           percentage_change := percentage_change |}
  else
    ret {| current := zero_tax_result annual_income;
           proposed := zero_tax_result annual_income;
           annual_relief := zero;
           monthly_relief := zero;
           percentage_change := NFloat zero |}.

(** Lines 41-60: the single return statement. *)
Definition assemble (monthly_income annual_income : float) (v : locals)
  : gmap string pyval :=
  {[ "monthly_income" := float_val monthly_income;
     "annual_income" := float_val annual_income;
     "current" := PDict (labelled "2024 PITA" (current v));
     "proposed" := PDict (labelled "2026 Reform" (proposed v));
     "impact" := PDict
       {[ "monthly_relief" := PNum (round_2 (NFloat (monthly_relief v)));
          "annual_relief" := PNum (round_2 (NFloat (annual_relief v)));
          "percentage_change" := PNum (round_2 (percentage_change v)) ]} ]}.

Definition calculate_tax_impact (monthly_income : float)
  : M (gmap string pyval) :=
  let annual_income := mul monthly_income (of_Z 12) in
  let* v := branches annual_income in
  ret (assemble monthly_income annual_income v).

End Engine.

(** What the [else] branch leaves in the locals. *)
Definition exempt_locals (annual_income : float) : locals :=
  {| current := zero_tax_result annual_income;
     proposed := zero_tax_result annual_income;
     annual_relief := zero;
     monthly_relief := zero;
     percentage_change := NFloat zero |}.

(** What the [if] branch leaves in the locals when the calculators answered
    [cur] and [pro] with annual taxes [ct] and [pt]. *)
Definition taxable_locals (cur pro : regime_dict) (ct pt : float) : locals :=
  {| current := cur;
     proposed := pro;
     annual_relief := sub ct pt;
     monthly_relief := div (sub ct pt) (of_Z 12);
     percentage_change :=
       if gt ct (of_Z 0)
       then NFloat (mul (div (sub ct pt) ct) (of_Z 100))
       else NInt 0 |}.

(** Reading the result: [r[k]] when it is a dictionary, and [r[k1][k2]]. *)
Definition subdict (r : gmap string pyval) (k : string)
  : option (gmap string pyval) :=
  match r !! k with
  | Some (PDict d) => Some d
  | _ => None
  end.

Definition field (r : gmap string pyval) (k1 k2 : string) : option pyval :=
  match subdict r k1 with
  | Some d => d !! k2
  | None => None
  end.

(** The five preconditions of a run through the taxable branch: the income
    is above the threshold and both calculators answer with a dictionary
    that has an ["annual_tax"]. *)
Definition taxable_run (c24 c26 : float -> result regime_dict) (x : float)
    (cur pro : regime_dict) (ct pt : float) : Prop :=
  gt (mul x (of_Z 12)) threshold = true /\
  c24 (mul x (of_Z 12)) = Ok cur /\
  c26 (mul x (of_Z 12)) = Ok pro /\
  cur !! "annual_tax" = Some ct /\
  pro !! "annual_tax" = Some pt.

End TaxEngine.

(** ** Stand-in regime modules

    The two rule modules are not part of the engine's file.  The theorems
    below hold for every pair of calculators; to run the engine on a concrete
    income one needs a concrete pair.  [flat] answers with a one-band regime
    that checks its input the way a regime calculator is documented to. *)

Module StandIn.
Import PyFloat Py.
Local Open Scope string_scope.

Definition regime_result (gross taxable relief tax : float) : regime_dict :=
  {[ "gross_income" := gross;
     "taxable_income" := taxable;
     "consolidated_relief" := relief;
     "annual_tax" := tax;
     "monthly_tax" := div tax (of_Z 12);
     "effective_rate" := if is_zero gross then S754_zero false else div tax gross ]}.

Definition flat_answer (rate : float) (gross_income : float) : regime_dict :=
  regime_result gross_income gross_income (S754_zero false) (mul gross_income rate).

Definition flat (rate : float) (gross_income : float) : result regime_dict :=
  if is_negative gross_income || negb (is_finite gross_income)
  then Raise InvalidInputError
  else Ok (flat_answer rate gross_income).

Definition pita_2024 := flat (of_ratio 7 100).
Definition pita_2026 := flat (of_ratio 5 100).

(** Incomes used in the examples: 50000 and 500000 a month, a negative
    one, and the monthly income whose twelvefold is exactly 800000. *)
Definition low_income : float := of_Z 50000.
Definition high_income : float := of_Z 500000.
Definition negative_income : float := of_Z (-100).
Definition threshold_income : float := of_ratio 200000 3.

End StandIn.

(** ** The regime calculator *)

Module Regime.
Import Py.
Local Open Scope Q_scope.

(** Modelled from the spec: the regime calculators ([engine/tax_rules_2024.py]
    and [engine/tax_rules_2026.py]) are imported by the engine but are not
    among the sources.  The definitions of this module follow the design
    of the regime calculator: a relief rule, an ordered bracket table and
    a marginal-rate walk, over exact amounts.  A bracket is an income band
    with an inclusive lower bound, an exclusive upper bound (none for the
    top band) and a rate. *)
Record TaxBracket := {
  lower_bound : Q;            (* inclusive *)
  upper_bound : option Q;     (* exclusive; [None] for the top band *)
  rate : Q
}.

(** Modelled from the spec: a relief rule is a floor-or-percentage term plus
    a flat percentage term, [max(floor, share * gross) + flat * gross]; for
    2024 the constants are 200000, 1% and 20%. *)
Record ReliefRule := {
  relief_floor : Q;
  relief_share : Q;
  relief_flat : Q
}.

(** Modelled from the spec: a regime is a relief rule with a bracket table. *)
Record Regime := {
  relief_rule : ReliefRule;
  bracket_table : list TaxBracket
}.

(** Modelled from the spec: the record a regime calculator returns. *)
Record RegimeResult := {
  gross_income : Q;
  taxable_income : Q;
  consolidated_relief : Q;
  annual_tax : Q;
  monthly_tax : Q;
  effective_rate : Q
}.

Definition relief_2024 : ReliefRule :=
  {| relief_floor := 200000; relief_share := 1 # 100; relief_flat := 20 # 100 |}.

Definition consolidated_relief_of (rule : ReliefRule) (gross : Q) : Q :=
  Qmax (relief_floor rule) (relief_share rule * gross) + relief_flat rule * gross.

(** The floor and the two percentages of a relief rule are not negative. *)
Definition relief_rule_ok (rule : ReliefRule) : Prop :=
  0 <= relief_floor rule /\ 0 <= relief_share rule /\ 0 <= relief_flat rule.

Definition Qltb (x y : Q) : bool := negb (Qle_bool y x).

(** Modelled from the spec: the invariant of a bracket table.  Bands are
    contiguous from [lo], strictly increasing, end with the one unbounded
    band, and every rate is a fraction between 0 and 1. *)
Fixpoint contiguous_from (lo : Q) (bands : list TaxBracket) : bool :=
  match bands with
  | [] => false
  | b :: rest =>
      Qeq_bool (lower_bound b) lo && Qle_bool 0 (rate b) && Qle_bool (rate b) 1 &&
      match upper_bound b, rest with
      | None, [] => true
      | Some u, _ :: _ => Qltb lo u && contiguous_from u rest
      | _, _ => false
      end
  end.

Definition well_formed (bands : list TaxBracket) : bool := contiguous_from 0 bands.

Definition rates_ok (bands : list TaxBracket) : Prop :=
  Forall (fun b => 0 <= rate b /\ rate b <= 1) bands.

(** Modelled from the spec: the slice of [taxable] that falls within the
    band; a band above [taxable] contributes nothing. *)
Definition band_portion (taxable : Q) (b : TaxBracket) : Q :=
  match upper_bound b with
  | Some u => Qmax 0 (Qmin taxable u - lower_bound b)
  | None => Qmax 0 (taxable - lower_bound b)
  end.

Definition band_tax (taxable : Q) (b : TaxBracket) : Q :=
  band_portion taxable b * rate b.

(** Modelled from the spec: the sum of the per-band taxes. *)
Fixpoint bracket_walk (taxable : Q) (bands : list TaxBracket) : Q :=
  match bands with
  | [] => 0
  | b :: rest => band_tax taxable b + bracket_walk taxable rest
  end.

(** Modelled from the spec: the contract [compute(gross_income)] of the
    regime calculator.  A malformed table is a [ConfigurationError], a
    negative income an [InvalidInputError]; otherwise relief, taxable
    income, the bracket walk, and the derived monthly tax and effective
    rate. *)
Definition compute (R : Regime) (gross : Q) : result RegimeResult :=
  if negb (well_formed (bracket_table R)) then Raise ConfigurationError
  else if Qltb gross 0 then Raise InvalidInputError
  else
    let relief := consolidated_relief_of (relief_rule R) gross in
    let taxable := Qmax 0 (gross - relief) in
    let tax := bracket_walk taxable (bracket_table R) in
    Ok {| gross_income := gross;
          taxable_income := taxable;
          consolidated_relief := relief;
          annual_tax := tax;
          monthly_tax := tax / 12;
          effective_rate := if Qltb 0 gross then tax / gross else 0 |}.

(** A two-band table to run the calculator on: 7% on the first 300000 of
    taxable income, 24% above. *)
Definition sample_table : list TaxBracket :=
  [ {| lower_bound := 0; upper_bound := Some 300000; rate := 7 # 100 |};
    {| lower_bound := 300000; upper_bound := None; rate := 24 # 100 |} ].

Definition sample_regime : Regime :=
  {| relief_rule := relief_2024; bracket_table := sample_table |}.

End Regime.

(** ** Calculators for probing the engine's edges

    [failing e] raises [e] whatever the income; [answering d] returns the
    dictionary [d] whatever the income.  They let the engine be run on a
    calculator that fails, omits ["annual_tax"], brings its own ["label"],
    or reports a NaN tax. *)

Module Probe.
Import PyFloat Py.

Definition failing (e : exn) (gross_income : float) : result regime_dict :=
  Raise e.

Definition answering (d : regime_dict) (gross_income : float) : result regime_dict :=
  Ok d.

(** Answers with an annual tax and nothing else, and with a ["label"]
    besides. *)
Definition tax_only (tax : float) : regime_dict :=
  {[ "annual_tax"%string := tax ]}.

Definition with_label (l tax : float) : regime_dict :=
  {[ "label"%string := l; "annual_tax"%string := tax ]}.

End Probe.

(** ** The evaluation script's question loop ([evaluation.py], lines 43-78)

    The script asks the assistant each exam question in turn, keeps the
    answers, and passes every answer to the grader as its own retrieved
    context.  The assistant is a language-model client outside the
    repository: it is a parameter here, a function of the state of the
    outside world that answers or raises. *)

Module Evaluation.
Local Open Scope string_scope.
Local Open Scope list_scope.

(** Line 43: the exam. *)
Definition data_question : list string :=
  [ "How is the Consolidated Relief Allowance calculated in 2024?";
    "What is the tax rate for someone earning 300,000 naira annually?";
    "Calculate the tax impact for a monthly income of 500,000 naira." ].

Definition data_ground_truth : list string :=
  [ "In 2024, CRA is calculated as the higher of 200,000 Naira or 1% of Gross Income, plus 20% of Gross Income.";
    "The first 300,000 Naira of taxable income is taxed at 7%.";
    "Use the calculator tool to determine the exact tax impact based on current laws." ].

(** What the loop does to the outside: a line on the terminal, a question
    to the assistant. *)
Inductive event :=
| Print (line : string)
| AskQuestion (question user_id : string).

(** The four columns handed to [Dataset.from_dict]. *)
Record dataset := {
  question : list string;
  answer : list string;
  contexts : list (list string);
  ground_truth : list string
}.

Section Exam.
Variable World Exn : Type.
(** [assistant.ask_question(q, user_id=...)] *)
Variable ask_question : World -> string -> string -> World * (Exn + string).

Record exam := {
  world : World;
  log : list event;
  actual_answers : list string;
  retrieved_contexts : list (list string)
}.

(** Lines 60-61: the two empty lists. *)
Definition start (w : World) : exam :=
  {| world := w; log := []; actual_answers := []; retrieved_contexts := [] |}.

Definition asking (q : string) : list event :=
  [ Print ("   Asking: " +:+ q +:+ "...");
    AskQuestion q "eval_user" ].

(** Lines 63-70: the loop.  An exception of the assistant is not caught:
    it ends the run with the lists as they are. *)
Fixpoint take_exam (questions : list string) (st : exam) : exam * option Exn :=
  match questions with
  | [] => (st, None)
  | q :: rest =>
      match ask_question (world st) q "eval_user" with
      | (w, inl e) =>
          ({| world := w;
              log := log st ++ asking q;
              actual_answers := actual_answers st;
              retrieved_contexts := retrieved_contexts st |}, Some e)
      | (w, inr response_text) =>
          take_exam rest
            {| world := w;
               log := log st ++ asking q;
               actual_answers := actual_answers st ++ [response_text];
               retrieved_contexts := retrieved_contexts st ++ [[response_text]] |}
      end
  end.

(** Lines 73-78. *)
Definition eval_dataset (st : exam) : dataset :=
  {| question := data_question;
     answer := actual_answers st;
     contexts := retrieved_contexts st;
     ground_truth := data_ground_truth |}.

End Exam.

(** Two assistants to run the loop with: the world is the number of
    questions asked so far; [echo] always answers, [tired] raises on its
    second question. *)
Definition echo (w : nat) (q user_id : string) : nat * (string + string) :=
  (S w, inr ("re: " +:+ q)).

Definition tired (w : nat) (q user_id : string) : nat * (string + string) :=
  match w with
  | 1%nat => (S w, inl "quota exceeded")
  | _ => (S w, inr ("re: " +:+ q))
  end.

End Evaluation.

(** ** Facts about float comparison and multiplication *)

Module PyFloatFacts.
Import PyFloat.

Lemma SFcompare_swap (x y : float) :
  SFcompare y x = option_map CompOpp (SFcompare x y).
Proof.
  destruct x as [sx | sx | | sx mx ex], y as [sy | sy | | sy my ey];
    simpl; try reflexivity;
    try (destruct sx; reflexivity); try (destruct sy; reflexivity);
    try (destruct sx, sy; reflexivity).
  destruct sx, sy; simpl; try reflexivity;
    rewrite (Z.compare_antisym ex ey);
    destruct (ex ?= ey) eqn:E; simpl; try reflexivity;
    rewrite (Pos.compare_cont_antisym mx my Eq); reflexivity.
Qed.

(** [x <= y] excludes [x > y]. *)
Lemma le_not_gt (x y : float) : le x y = true -> gt x y = false.
Proof.
  unfold le, gt, SFleb, SFltb. rewrite (SFcompare_swap x y).
  destruct (SFcompare x y) as [[ | | ] | ]; simpl; congruence.
Qed.

(** A positive float is not a zero: the guard of [percentage_change]
    protects its division. *)
Lemma gt_zero_nonzero (x : float) : gt x (of_Z 0) = true -> is_zero x = false.
Proof. destruct x; simpl; intros H; first [reflexivity | discriminate H]. Qed.

Lemma is_zero_not_gt_zero (x : float) : is_zero x = true -> gt x (of_Z 0) = false.
Proof. destruct x; simpl; intros H; first [reflexivity | discriminate H]. Qed.

(** Rounding keeps the sign it is given. *)
Lemma binary_round_aux_negative (m e : Z) (l : location) :
  negative_or_nan (binary_round_aux prec emax true m e l) = true.
Proof.
  unfold binary_round_aux.
  destruct (shr_fexp prec emax m e l) as [mrs' e'].
  destruct (shr_fexp prec emax _ e' loc_Exact) as [mrs'' e''].
  destruct (shr_m mrs''); simpl; auto.
  destruct (e'' <=? emax - prec); reflexivity.
Qed.

(** A negative float is not greater than a positive finite one. *)
Lemma negative_not_gt (r : float) (m : positive) (e : Z) :
  negative_or_nan r = true ->
  gt r (S754_finite false m e) = false.
Proof.
  destruct r as [s | s | | s m' e']; simpl; intros H; subst; reflexivity.
Qed.

(** Twelve times a negative income stays below the threshold (it may
    underflow to [-0.0] or overflow to [-inf]). *)
Lemma mul_12_negative (x : float) :
  is_negative x = true -> gt (mul x (of_Z 12)) (of_Z 800000) = false.
Proof.
  intros H.
  change (of_Z 800000) with (S754_finite false 6871947673600000 (-33)).
  change (of_Z 12) with (S754_finite false 6755399441055744 (-49)).
  apply negative_not_gt.
  destruct x as [s | s | | s m e]; simpl in H; try discriminate H; subst s.
  - reflexivity.
  - reflexivity.
  - unfold mul, SFmul. cbn [xorb].
    apply binary_round_aux_negative.
Qed.

End PyFloatFacts.

(** ** The two branches of the engine *)

Module TaxEngineFacts.
Import PyFloat Py TaxEngine PyFloatFacts.
Local Open Scope string_scope.

Section WithCalculators.
Variable calculate_pita_2024 calculate_pita_2026 : float -> result regime_dict.

Local Abbreviation branches := (branches calculate_pita_2024 calculate_pita_2026).
Local Abbreviation calculate_tax_impact :=
  (calculate_tax_impact calculate_pita_2024 calculate_pita_2026).

Lemma branches_exempt (a : float) :
  gt a threshold = false -> branches a = ([], Ok (exempt_locals a)).
Proof. intros H. unfold TaxEngine.branches. rewrite H. reflexivity. Qed.

Lemma branches_taxable (a : float) (cur pro : regime_dict) (ct pt : float) :
  gt a threshold = true ->
  calculate_pita_2024 a = Ok cur ->
  calculate_pita_2026 a = Ok pro ->
  cur !! "annual_tax" = Some ct ->
  pro !! "annual_tax" = Some pt ->
  branches a = ([Call2024 a; Call2026 a], Ok (taxable_locals cur pro ct pt)).
Proof.
  intros Hgt H24 H26 Hct Hpt.
  unfold TaxEngine.branches, call_2024, call_2026, getitem, truediv, taxable_locals.
  rewrite Hgt, H24, H26. cbn [bind ret]. rewrite Hct, Hpt. cbn [bind ret].
  change (is_zero (of_Z 12)) with false. cbn [bind ret].
  destruct (gt ct (of_Z 0)) eqn:Hpos; cbn [bind ret]; [ | reflexivity].
  rewrite (gt_zero_nonzero ct Hpos). reflexivity.
Qed.

(** A run that returns went through one of the two branches above. *)
Lemma branches_inv (a : float) (v : locals) :
  outcome (branches a) = Ok v ->
  (gt a threshold = false /\ v = exempt_locals a) \/
  (gt a threshold = true /\
   exists cur pro ct pt,
     calculate_pita_2024 a = Ok cur /\ calculate_pita_2026 a = Ok pro /\
     cur !! "annual_tax" = Some ct /\ pro !! "annual_tax" = Some pt /\
     v = taxable_locals cur pro ct pt).
Proof.
  destruct (gt a threshold) eqn:Hgt.
  - intros H. right. split; [reflexivity | ].
    destruct (calculate_pita_2024 a) as [cur | e] eqn:H24.
    2:{ unfold TaxEngine.branches, call_2024 in H. rewrite Hgt, H24 in H. discriminate H. }
    destruct (calculate_pita_2026 a) as [pro | e] eqn:H26.
    2:{ unfold TaxEngine.branches, call_2024, call_2026 in H.
        rewrite Hgt, H24, H26 in H. discriminate H. }
    destruct (cur !! "annual_tax") as [ct | ] eqn:Hct.
    2:{ unfold TaxEngine.branches, call_2024, call_2026, getitem in H.
        rewrite Hgt, H24, H26 in H. cbn [bind ret] in H. rewrite Hct in H.
        discriminate H. }
    destruct (pro !! "annual_tax") as [pt | ] eqn:Hpt.
    2:{ unfold TaxEngine.branches, call_2024, call_2026, getitem in H.
        rewrite Hgt, H24, H26 in H. cbn [bind ret] in H. rewrite Hct, Hpt in H.
        discriminate H. }
    exists cur, pro, ct, pt.
    rewrite (branches_taxable a cur pro ct pt Hgt H24 H26 Hct Hpt) in H.
    injection H as <-. auto.
  - intros H. left. rewrite (branches_exempt a Hgt) in H.
    injection H as <-. auto.
Qed.

Lemma impact_of_branches (x : float) (t : list event) (v : locals) :
  branches (mul x (of_Z 12)) = (t, Ok v) ->
  calculate_tax_impact x = (t, Ok (assemble x (mul x (of_Z 12)) v)).
Proof.
  intros H. unfold TaxEngine.calculate_tax_impact. rewrite H.
  cbn [bind ret]. rewrite app_nil_r. reflexivity.
Qed.

Lemma impact_inv (x : float) (r : gmap string pyval) :
  outcome (calculate_tax_impact x) = Ok r ->
  exists v, outcome (branches (mul x (of_Z 12))) = Ok v /\
            r = assemble x (mul x (of_Z 12)) v.
Proof.
  unfold TaxEngine.calculate_tax_impact.
  destruct (TaxEngine.branches _ _ (mul x (of_Z 12))) as [t [v | e]];
    cbn [bind ret outcome snd]; intros H; [ | discriminate H].
  injection H as <-. exists v. auto.
Qed.

(** Reading the assembled dictionary back. *)
Lemma assemble_impact (x a : float) (v : locals) :
  subdict (assemble x a v) "impact" =
  Some {[ "monthly_relief" := PNum (round_2 (NFloat (monthly_relief v)));
          "annual_relief" := PNum (round_2 (NFloat (annual_relief v)));
          "percentage_change" := PNum (round_2 (percentage_change v)) ]}.
Proof. reflexivity. Qed.

Lemma assemble_current (x a : float) (v : locals) :
  subdict (assemble x a v) "current" = Some (labelled "2024 PITA" (current v)).
Proof. reflexivity. Qed.

Lemma assemble_proposed (x a : float) (v : locals) :
  subdict (assemble x a v) "proposed" = Some (labelled "2026 Reform" (proposed v)).
Proof. reflexivity. Qed.

Lemma labelled_lookup_ne (l : string) (d : regime_dict) (k : string) :
  k <> "label" -> labelled l d !! k = float_val <$> (d !! k).
Proof.
  intros Hk. unfold labelled.
  rewrite lookup_union, lookup_fmap, lookup_singleton_ne by congruence.
  destruct (d !! k); reflexivity.
Qed.

Lemma labelled_lookup_label (l : string) (d : regime_dict) :
  d !! "label" = None -> labelled l d !! "label" = Some (PStr l).
Proof.
  intros Hd. unfold labelled.
  rewrite lookup_union, lookup_fmap, Hd, lookup_singleton_eq. reflexivity.
Qed.

Lemma labelled_delete_label (l : string) (d : regime_dict) :
  d !! "label" = None -> delete "label" (labelled l d) = float_val <$> d.
Proof.
  intros Hd. apply map_eq. intros k.
  destruct (decide (k = "label")) as [-> | Hk].
  - rewrite lookup_delete_eq, lookup_fmap, Hd. reflexivity.
  - rewrite lookup_delete_ne by congruence.
    rewrite labelled_lookup_ne by assumption. rewrite lookup_fmap. reflexivity.
Qed.

End WithCalculators.
End TaxEngineFacts.

(** ** What [calculate_tax_impact] guarantees *)

Module TaxImpact.
Import PyFloat Py TaxEngine PyFloatFacts TaxEngineFacts.
Local Open Scope string_scope.

Lemma taxable_run_result c24 c26 x cur pro ct pt :
  taxable_run c24 c26 x cur pro ct pt ->
  calculate_tax_impact c24 c26 x =
  ([Call2024 (mul x (of_Z 12)); Call2026 (mul x (of_Z 12))],
   Ok (assemble x (mul x (of_Z 12)) (taxable_locals cur pro ct pt))).
Proof.
  intros (Hgt & H24 & H26 & Hct & Hpt).
  apply impact_of_branches. now apply branches_taxable.
Qed.

Lemma exempt_run_result c24 c26 x :
  gt (mul x (of_Z 12)) threshold = false ->
  calculate_tax_impact c24 c26 x =
  ([], Ok (assemble x (mul x (of_Z 12)) (exempt_locals (mul x (of_Z 12))))).
Proof. intros Hgt. apply impact_of_branches. now apply branches_exempt. Qed.

Section Claims.
Variable calculate_pita_2024 calculate_pita_2026 : float -> result regime_dict.

Local Abbreviation calculate_tax_impact :=
  (calculate_tax_impact calculate_pita_2024 calculate_pita_2026).
Local Abbreviation branches :=
  (branches calculate_pita_2024 calculate_pita_2026).
Local Abbreviation taxable_run :=
  (taxable_run calculate_pita_2024 calculate_pita_2026).

(** C1 (as amended).  A negative monthly income (the sign bit is set:
    [-100], [-0.0], [-inf]) and NaN are not rejected: the engine has no
    input check, twelve times such an income is not above the threshold,
    so the run calls no regime calculator and returns the exemption
    result built from [monthly_income * 12].  For any income, an
    [InvalidInputError] reaches the caller only from the taxable branch,
    when one of the two regime calculators raises it. *)
Theorem negative_income_returns_exemption (x : float) :
  (negative_or_nan x = true ->
   calculate_tax_impact x =
   ([], Ok (assemble x (mul x (of_Z 12)) (exempt_locals (mul x (of_Z 12)))))) /\
  (outcome (calculate_tax_impact x) = Raise InvalidInputError ->
   gt (mul x (of_Z 12)) threshold = true /\
   (calculate_pita_2024 (mul x (of_Z 12)) = Raise InvalidInputError \/
    calculate_pita_2026 (mul x (of_Z 12)) = Raise InvalidInputError)).
Proof.
  split.
  - intros Hx. apply exempt_run_result.
    destruct x as [s | s | | s m e]; try (apply mul_12_negative; exact Hx).
    reflexivity.
  - unfold TaxEngine.calculate_tax_impact, TaxEngine.branches,
      call_2024, call_2026, getitem, truediv.
    generalize (mul x (of_Z 12)) as a. intros a.
    destruct (gt a threshold); [ | discriminate].
    destruct (calculate_pita_2024 a) as [cur | e];
      [ | cbn [bind outcome snd]; intros [= ->]; auto].
    destruct (calculate_pita_2026 a) as [pro | e];
      [ | cbn [bind outcome snd]; intros [= ->]; auto].
    cbn [bind ret raise].
    destruct (cur !! "annual_tax") as [ct | ]; [ | discriminate].
    destruct (pro !! "annual_tax") as [pt | ]; [ | discriminate].
    cbn [bind ret raise].
    change (is_zero (of_Z 12)) with false. cbn [bind ret raise].
    destruct (gt ct (of_Z 0)); [ | discriminate].
    cbn [bind ret raise].
    destruct (is_zero ct); discriminate.
Qed.

(** C2 (as amended).  Branch convergence.  When
    [annual_income <= 800000] the run returns, [impact.annual_relief] is
    [0.0], and the branch leaves one and the same zero-valued regime
    result in [current] and in [proposed]: [gross_income] is
    [annual_income] and the five other fields are [0.0].  The returned
    records put the labels "2024 PITA" and "2026 Reform" in front of
    it, so they agree on every key but ["label"] and are not equal as
    records.  When [annual_income > 800000] and the calculators answer,
    [current] is the 2024 answer, [proposed] the 2026 answer, and
    [impact.annual_relief] is the difference of their annual taxes
    rounded to two decimals. *)
Theorem branch_convergence (x : float) :
  (le (mul x (of_Z 12)) threshold = true ->
   exists r v c p,
     outcome (calculate_tax_impact x) = Ok r /\
     outcome (branches (mul x (of_Z 12))) = Ok v /\
     field r "impact" "annual_relief" = Some (float_val (S754_zero false)) /\
     current v = proposed v /\
     current v =
       {[ "gross_income" := mul x (of_Z 12);
          "taxable_income" := S754_zero false;
          "consolidated_relief" := S754_zero false;
          "annual_tax" := S754_zero false;
          "monthly_tax" := S754_zero false;
          "effective_rate" := S754_zero false ]} /\
     subdict r "current" = Some c /\
     subdict r "proposed" = Some p /\
     c = <[ "label" := PStr "2024 PITA" ]> (float_val <$> current v) /\
     p = <[ "label" := PStr "2026 Reform" ]> (float_val <$> proposed v) /\
     (forall k, k <> "label" -> c !! k = p !! k) /\
     delete "label" c = delete "label" p /\
     c <> p) /\
  (forall cur pro ct pt,
     taxable_run x cur pro ct pt ->
     exists r,
       outcome (calculate_tax_impact x) = Ok r /\
       field r "impact" "annual_relief" = Some (float_val (round2 (sub ct pt))) /\
       subdict r "current" = Some (labelled "2024 PITA" cur) /\
       subdict r "proposed" = Some (labelled "2026 Reform" pro) /\
       field r "current" "annual_tax" = Some (float_val ct) /\
       field r "proposed" "annual_tax" = Some (float_val pt)).
Proof.
  split.
  - intros Hle. apply le_not_gt in Hle.
    rewrite (exempt_run_result _ _ x Hle), (branches_exempt _ _ _ Hle).
    eexists _, _, _, _. split; [reflexivity | ].
    split; [reflexivity | ].
    split; [reflexivity | ].
    split; [reflexivity | ].
    split; [reflexivity | ].
    split; [apply assemble_current | ].
    split; [apply assemble_proposed | ].
    cbn [exempt_locals current proposed].
    assert (Hc : forall l : string,
               labelled l (zero_tax_result (mul x (of_Z 12))) =
               <[ "label" := PStr l ]>
                 (float_val <$> zero_tax_result (mul x (of_Z 12)))).
    { intros l. unfold labelled.
      rewrite insert_union_singleton_r by reflexivity. reflexivity. }
    split; [apply Hc | ]. split; [apply Hc | ].
    split; [ | split].
    + intros k Hk. rewrite !labelled_lookup_ne by exact Hk. reflexivity.
    + rewrite !labelled_delete_label by reflexivity. reflexivity.
    + intros Heq.
      apply (f_equal (fun m : gmap string pyval => m !! "label")) in Heq.
      rewrite !labelled_lookup_label in Heq by reflexivity.
      discriminate Heq.
  - intros cur pro ct pt Hrun.
    rewrite (taxable_run_result _ _ _ _ _ _ _ Hrun).
    destruct Hrun as (_ & _ & _ & Hct & Hpt).
    eexists. split; [reflexivity | ].
    split; [reflexivity | ].
    split; [apply assemble_current | ].
    split; [apply assemble_proposed | ].
    unfold field. rewrite assemble_current, assemble_proposed.
    cbn [taxable_locals current proposed].
    rewrite !labelled_lookup_ne by discriminate.
    rewrite Hct, Hpt. split; reflexivity.
Qed.

(** C3.  The threshold test is inclusive.  Whenever
    [annual_income <= 800000], equality included, the run calls neither
    calculator and returns the dictionary below: [current] and
    [proposed] hold [gross_income = annual_income] and zero in the five
    other fields, and the three impact figures are zero. *)
Theorem exemption_threshold_inclusive (x : float) :
  le (mul x (of_Z 12)) threshold = true ->
  calculate_tax_impact x =
  ([],
   Ok {[ "monthly_income" := float_val x;
         "annual_income" := float_val (mul x (of_Z 12));
         "current" := PDict
           {[ "label" := PStr "2024 PITA";
              "gross_income" := float_val (mul x (of_Z 12));
              "taxable_income" := float_val zero;
              "consolidated_relief" := float_val zero;
              "annual_tax" := float_val zero;
              "monthly_tax" := float_val zero;
              "effective_rate" := float_val zero ]};
         "proposed" := PDict
           {[ "label" := PStr "2026 Reform";
              "gross_income" := float_val (mul x (of_Z 12));
              "taxable_income" := float_val zero;
              "consolidated_relief" := float_val zero;
              "annual_tax" := float_val zero;
              "monthly_tax" := float_val zero;
              "effective_rate" := float_val zero ]};
         "impact" := PDict
           {[ "monthly_relief" := float_val zero;
              "annual_relief" := float_val zero;
              "percentage_change" := float_val zero ]} ]}).
Proof.
  intros Hle. apply le_not_gt in Hle.
  rewrite (exempt_run_result _ _ x Hle).
  reflexivity.
Qed.

(** C4.  [annual_income = monthly_income * 12] is computed before the
    branch: every returned result carries it under ["annual_income"]
    (next to the unchanged ["monthly_income"]), the exemption branch
    returns and also stores it as [gross_income] of [current] and of
    [proposed], and the taxable branch returns as soon as the
    calculators answer. *)
Theorem annual_income_in_both_branches (x : float) :
  (forall r,
     outcome (calculate_tax_impact x) = Ok r ->
     r !! "annual_income" = Some (float_val (mul x (of_Z 12))) /\
     r !! "monthly_income" = Some (float_val x)) /\
  (gt (mul x (of_Z 12)) threshold = false ->
   exists r,
     outcome (calculate_tax_impact x) = Ok r /\
     r !! "annual_income" = Some (float_val (mul x (of_Z 12))) /\
     field r "current" "gross_income" = Some (float_val (mul x (of_Z 12))) /\
     field r "proposed" "gross_income" = Some (float_val (mul x (of_Z 12)))) /\
  (forall cur pro ct pt,
     taxable_run x cur pro ct pt ->
     exists r,
       outcome (calculate_tax_impact x) = Ok r /\
       r !! "annual_income" = Some (float_val (mul x (of_Z 12)))).
Proof.
  split; [ | split].
  - intros r Hr. apply impact_inv in Hr. destruct Hr as (v & _ & ->).
    split; reflexivity.
  - intros Hgt. rewrite (exempt_run_result _ _ x Hgt).
    eexists. repeat split; reflexivity.
  - intros cur pro ct pt Hrun.
    rewrite (taxable_run_result _ _ _ _ _ _ _ Hrun).
    eexists. split; reflexivity.
Qed.

(** C5.  On the taxable branch the division by the current tax is
    guarded: the run returns (no [ZeroDivisionError]); when
    [current.annual_tax > 0], [percentage_change] is
    [annual_relief / current.annual_tax * 100]; when it is not, in
    particular when it is zero, [percentage_change] is [0].  The result
    stores the two-decimal rounding of that value. *)
Theorem percentage_change_guarded (x : float) (cur pro : regime_dict) (ct pt : float) :
  taxable_run x cur pro ct pt ->
  exists v r,
    outcome (branches (mul x (of_Z 12))) = Ok v /\
    outcome (calculate_tax_impact x) = Ok r /\
    annual_relief v = sub ct pt /\
    (gt ct (of_Z 0) = true ->
     percentage_change v = NFloat (mul (div (annual_relief v) ct) (of_Z 100))) /\
    (gt ct (of_Z 0) = false -> percentage_change v = NInt 0) /\
    (is_zero ct = true -> percentage_change v = NInt 0) /\
    field r "impact" "percentage_change" = Some (PNum (round_2 (percentage_change v))).
Proof.
  intros Hrun.
  rewrite (taxable_run_result _ _ _ _ _ _ _ Hrun).
  destruct Hrun as (Hgt & H24 & H26 & Hct & Hpt).
  rewrite (branches_taxable _ _ _ _ _ _ _ Hgt H24 H26 Hct Hpt).
  eexists _, _. split; [reflexivity | ]. split; [reflexivity | ].
  cbn [taxable_locals annual_relief percentage_change].
  split; [reflexivity | ].
  split; [intros ->; reflexivity | ].
  split; [intros ->; reflexivity | ].
  split; [ | reflexivity].
  intros Hz. rewrite (is_zero_not_gt_zero ct Hz). reflexivity.
Qed.

(** C6.  Rounding happens in the returned [impact] record only.  Every
    returned result holds [round(., 2)] of the three locals, and the
    locals themselves are unrounded: on the taxable branch
    [annual_relief] is the plain difference of the two annual taxes, and
    [monthly_relief] and [percentage_change] are computed from that
    difference; [current] and [proposed] are stored as the branch left
    them.  Rounding the numerator first would give another percentage. *)
Theorem relief_rounded_only_in_result (x : float) :
  (forall r,
     outcome (calculate_tax_impact x) = Ok r ->
     exists v,
       outcome (branches (mul x (of_Z 12))) = Ok v /\
       subdict r "impact" =
         Some {[ "monthly_relief" := PNum (round_2 (NFloat (monthly_relief v)));
                 "annual_relief" := PNum (round_2 (NFloat (annual_relief v)));
                 "percentage_change" := PNum (round_2 (percentage_change v)) ]} /\
       subdict r "current" = Some (labelled "2024 PITA" (current v)) /\
       subdict r "proposed" = Some (labelled "2026 Reform" (proposed v)) /\
       (gt (mul x (of_Z 12)) threshold = false ->
        v = exempt_locals (mul x (of_Z 12))) /\
       (gt (mul x (of_Z 12)) threshold = true ->
        exists ct pt,
          current v !! "annual_tax" = Some ct /\
          proposed v !! "annual_tax" = Some pt /\
          annual_relief v = sub ct pt /\
          monthly_relief v = div (sub ct pt) (of_Z 12) /\
          percentage_change v =
            if gt ct (of_Z 0)
            then NFloat (mul (div (sub ct pt) ct) (of_Z 100))
            else NInt 0)) /\
  (exists ct pt,
     round2 (mul (div (sub ct pt) ct) (of_Z 100)) <>
     round2 (mul (div (round2 (sub ct pt)) ct) (of_Z 100))).
Proof.
  split.
  - intros r Hr. apply impact_inv in Hr. destruct Hr as (v & Hv & ->).
    exists v. split; [exact Hv | ].
    split; [apply assemble_impact | ].
    split; [apply assemble_current | ].
    split; [apply assemble_proposed | ].
    apply branches_inv in Hv.
    destruct Hv as [[Hgt ->] | (Hgt & cur & pro & ct & pt & _ & _ & Hct & Hpt & ->)];
      rewrite Hgt; (split; [ | ]); intros Hb; try discriminate Hb.
    + reflexivity.
    + exists ct, pt. cbn [taxable_locals current proposed annual_relief
                           monthly_relief percentage_change]. auto.
  - exists (of_Z 1), (of_ratio 996 1000). vm_compute. discriminate.
Qed.

(** C9.  Shape of the result.  Every returned result has exactly the keys
    [monthly_income], [annual_income], [current], [proposed] and
    [impact]; [impact] has exactly [monthly_relief], [annual_relief] and
    [percentage_change]; and, the calculators answering with regime
    results (which have no ["label"] of their own), [current] is
    labelled "2024 PITA" and [proposed] "2026 Reform" on both branches. *)
Theorem result_shape_and_labels (x : float) (r : gmap string pyval) :
  (forall d, calculate_pita_2024 (mul x (of_Z 12)) = Ok d -> d !! "label" = None) ->
  (forall d, calculate_pita_2026 (mul x (of_Z 12)) = Ok d -> d !! "label" = None) ->
  outcome (calculate_tax_impact x) = Ok r ->
  dom r = {[ "monthly_income"; "annual_income"; "current"; "proposed"; "impact" ]} /\
  (exists i, subdict r "impact" = Some i /\
             dom i = {[ "monthly_relief"; "annual_relief"; "percentage_change" ]}) /\
  field r "current" "label" = Some (PStr "2024 PITA") /\
  field r "proposed" "label" = Some (PStr "2026 Reform").
Proof.
  intros L24 L26 Hr. apply impact_inv in Hr. destruct Hr as (v & Hv & ->).
  split; [reflexivity | ].
  split; [eexists; split; [apply assemble_impact | reflexivity] | ].
  unfold field. rewrite assemble_current, assemble_proposed.
  apply branches_inv in Hv.
  destruct Hv as [[Hgt ->] | (Hgt & cur & pro & ct & pt & H24 & H26 & _ & _ & ->)].
  - split; reflexivity.
  - cbn [taxable_locals current proposed].
    split; apply labelled_lookup_label; [apply L24 | apply L26]; assumption.
Qed.

(** C10.  On the taxable branch [impact.monthly_relief] is
    [round((current.annual_tax - proposed.annual_tax) / 12, 2)]: the
    unrounded difference is divided, not the rounded
    [impact.annual_relief].  The two ways differ on some taxes, and
    twelve times the monthly figure need not be the annual one. *)
Theorem monthly_relief_from_unrounded_difference :
  (forall x cur pro ct pt,
     taxable_run x cur pro ct pt ->
     exists r,
       outcome (calculate_tax_impact x) = Ok r /\
       field r "impact" "monthly_relief" =
         Some (float_val (round2 (div (sub ct pt) (of_Z 12)))) /\
       field r "impact" "annual_relief" =
         Some (float_val (round2 (sub ct pt)))) /\
  (exists ct pt,
     round2 (div (sub ct pt) (of_Z 12)) <>
     round2 (div (round2 (sub ct pt)) (of_Z 12)) /\
     mul (of_Z 12) (round2 (div (sub ct pt) (of_Z 12))) <> round2 (sub ct pt)).
Proof.
  split.
  - intros x cur pro ct pt Hrun.
    rewrite (taxable_run_result _ _ _ _ _ _ _ Hrun).
    eexists. repeat split; reflexivity.
  - exists (of_ratio 420000061 1000), (of_Z 300000).
    split; vm_compute; discriminate.
Qed.

End Claims.

End TaxImpact.

(** ** The engine on concrete incomes *)

Module TaxImpactExamples.
Import PyFloat Py TaxEngine StandIn TaxEngineFacts TaxImpact.
Local Open Scope string_scope.

Lemma high_income_run :
  taxable_run pita_2024 pita_2026 high_income
    (flat_answer (of_ratio 7 100) (of_Z 6000000))
    (flat_answer (of_ratio 5 100) (of_Z 6000000))
    (mul (of_Z 6000000) (of_ratio 7 100))
    (mul (of_Z 6000000) (of_ratio 5 100)).
Proof.
  unfold taxable_run.
  replace (mul high_income (of_Z 12)) with (of_Z 6000000)
    by (vm_compute; reflexivity).
  split; [vm_compute; reflexivity | ].
  split; [reflexivity | ].
  split; [reflexivity | ].
  split; reflexivity.
Defined.

(** C1, refuted as stated: at [monthly_income = -100] the engine returns a
    result; nothing is raised and no calculator is called, although both
    stand-in calculators would reject a negative income. *)
Lemma negative_100_is_not_rejected :
  outcome (calculate_tax_impact pita_2024 pita_2026 negative_income) =
    Ok (assemble negative_income (of_Z (-1200)) (exempt_locals (of_Z (-1200)))) /\
  calls (calculate_tax_impact pita_2024 pita_2026 negative_income) = [] /\
  outcome (calculate_tax_impact pita_2024 pita_2026 negative_income) <>
    Raise InvalidInputError.
Proof.
  rewrite (exempt_run_result pita_2024 pita_2026 negative_income)
    by (vm_compute; reflexivity).
  replace (mul negative_income (of_Z 12)) with (of_Z (-1200))
    by (vm_compute; reflexivity).
  split; [reflexivity | ]. split; [reflexivity | discriminate].
Qed.

Lemma negative_income_returns_exemption_witness :
  negative_or_nan negative_income = true /\
  calculate_tax_impact pita_2024 pita_2026 negative_income =
    ([], Ok (assemble negative_income (mul negative_income (of_Z 12))
               (exempt_locals (mul negative_income (of_Z 12))))).
Proof.
  split; [reflexivity | ].
  apply (proj1 (negative_income_returns_exemption pita_2024 pita_2026
                  negative_income)).
  reflexivity.
Defined.

(** C2, refuted as stated: at [monthly_income = 50000]
    ([annual_income = 600000], below the threshold) the returned [current]
    and [proposed] are not equal: one is labelled "2024 PITA", the other
    "2026 Reform". *)
Lemma current_differs_from_proposed_at_50000 :
  le (mul low_income (of_Z 12)) threshold = true /\
  outcome (calculate_tax_impact pita_2024 pita_2026 low_income) =
    Ok (assemble low_income (of_Z 600000) (exempt_locals (of_Z 600000))) /\
  field (assemble low_income (of_Z 600000) (exempt_locals (of_Z 600000)))
    "current" "label" = Some (PStr "2024 PITA") /\
  field (assemble low_income (of_Z 600000) (exempt_locals (of_Z 600000)))
    "proposed" "label" = Some (PStr "2026 Reform") /\
  assemble low_income (of_Z 600000) (exempt_locals (of_Z 600000)) !! "current" <>
  assemble low_income (of_Z 600000) (exempt_locals (of_Z 600000)) !! "proposed".
Proof.
  split; [vm_compute; reflexivity | ].
  rewrite (exempt_run_result pita_2024 pita_2026 low_income)
    by (vm_compute; reflexivity).
  replace (mul low_income (of_Z 12)) with (of_Z 600000)
    by (vm_compute; reflexivity).
  split; [reflexivity | ]. split; [reflexivity | ]. split; [reflexivity | ].
  intros Heq.
  apply (f_equal (fun o : option pyval =>
                    match o with
                    | Some (PDict d) => d !! "label"
                    | _ => None
                    end)) in Heq.
  discriminate Heq.
Qed.

Lemma branch_convergence_witness :
  le (mul low_income (of_Z 12)) threshold = true /\
  (exists r c p,
     outcome (calculate_tax_impact pita_2024 pita_2026 low_income) = Ok r /\
     field r "impact" "annual_relief" = Some (float_val zero) /\
     subdict r "current" = Some c /\
     subdict r "proposed" = Some p /\
     delete "label" c = delete "label" p /\
     c <> p) /\
  (exists r,
     outcome (calculate_tax_impact pita_2024 pita_2026 high_income) = Ok r /\
     field r "impact" "annual_relief" = Some (float_val (of_Z 120000))).
Proof.
  split; [reflexivity | ].
  destruct (branch_convergence pita_2024 pita_2026 low_income) as [Hlow _].
  destruct (branch_convergence pita_2024 pita_2026 high_income) as [_ Hhigh].
  split.
  - destruct (Hlow eq_refl)
      as (r & v & c & p & Hr & _ & Hrel & _ & _ & Hc & Hp & _ & _ & _ & Hdel & Hne).
    exists r, c, p. auto 10.
  - destruct (Hhigh _ _ _ _ high_income_run) as (r & Hr & Hrel & _).
    exists r. split; [exact Hr | ]. rewrite Hrel. vm_compute. reflexivity.
Defined.

Lemma exemption_threshold_inclusive_witness :
  mul threshold_income (of_Z 12) = threshold /\
  le (mul threshold_income (of_Z 12)) threshold = true /\
  calls (calculate_tax_impact pita_2024 pita_2026 threshold_income) = [] /\
  exists r,
    outcome (calculate_tax_impact pita_2024 pita_2026 threshold_income) = Ok r /\
    field r "current" "gross_income" = Some (float_val (of_Z 800000)) /\
    field r "current" "annual_tax" = Some (float_val zero).
Proof.
  split; [vm_compute; reflexivity | ].
  split; [vm_compute; reflexivity | ].
  rewrite (exemption_threshold_inclusive pita_2024 pita_2026 threshold_income)
    by (vm_compute; reflexivity).
  split; [reflexivity | ].
  replace (mul threshold_income (of_Z 12)) with (of_Z 800000)
    by (vm_compute; reflexivity).
  eexists. split; [reflexivity | ]. split; reflexivity.
Defined.

Lemma annual_income_in_both_branches_witness :
  gt (mul low_income (of_Z 12)) threshold = false /\
  (exists r,
     outcome (calculate_tax_impact pita_2024 pita_2026 low_income) = Ok r /\
     r !! "annual_income" = Some (float_val (of_Z 600000)) /\
     field r "current" "gross_income" = Some (float_val (of_Z 600000))) /\
  (exists r,
     outcome (calculate_tax_impact pita_2024 pita_2026 high_income) = Ok r /\
     r !! "annual_income" = Some (float_val (of_Z 6000000))).
Proof.
  split; [reflexivity | ].
  destruct (annual_income_in_both_branches pita_2024 pita_2026 low_income)
    as (_ & Hlow & _).
  destruct (annual_income_in_both_branches pita_2024 pita_2026 high_income)
    as (_ & _ & Hhigh).
  split.
  - destruct (Hlow eq_refl) as (r & Hr & Ha & Hg & _). exists r. auto.
  - destruct (Hhigh _ _ _ _ high_income_run) as (r & Hr & Ha). exists r. auto.
Defined.

Lemma percentage_change_guarded_witness :
  gt (mul (of_Z 6000000) (of_ratio 7 100)) (of_Z 0) = true /\
  exists r,
    outcome (calculate_tax_impact pita_2024 pita_2026 high_income) = Ok r /\
    field r "impact" "percentage_change" = Some (float_val (of_ratio 2857 100)).
Proof.
  split; [reflexivity | ].
  destruct (percentage_change_guarded pita_2024 pita_2026 high_income _ _ _ _
              high_income_run)
    as (v & r & Hv & Hr & Hrel & Hpos & _ & _ & Hres).
  exists r. split; [exact Hr | ].
  rewrite Hres, (Hpos eq_refl), Hrel. vm_compute. reflexivity.
Defined.

Lemma relief_rounded_only_in_result_witness :
  exists r v,
    outcome (calculate_tax_impact pita_2024 pita_2026 high_income) = Ok r /\
    outcome (branches pita_2024 pita_2026 (mul high_income (of_Z 12))) = Ok v /\
    annual_relief v <> of_Z 120000 /\
    field r "impact" "annual_relief" = Some (float_val (of_Z 120000)).
Proof.
  destruct (relief_rounded_only_in_result pita_2024 pita_2026 high_income)
    as [Hall _].
  pose proof (f_equal outcome (taxable_run_result _ _ _ _ _ _ _ high_income_run))
    as Hres.
  cbn [outcome snd] in Hres.
  destruct (Hall _ Hres) as (v & Hv & Himp & _ & _ & _ & Htax).
  eexists _, v. split; [exact Hres | ]. split; [exact Hv | ].
  rewrite (branches_taxable _ _ _ _ _ _ _
             (proj1 high_income_run)
             (proj1 (proj2 high_income_run))
             (proj1 (proj2 (proj2 high_income_run)))
             (proj1 (proj2 (proj2 (proj2 high_income_run))))
             (proj2 (proj2 (proj2 (proj2 high_income_run))))) in Hv.
  cbn [outcome snd] in Hv.
  apply (f_equal (fun o => match o with
                           | Ok w => annual_relief w
                           | Raise _ => zero
                           end)) in Hv.
  cbn [taxable_locals annual_relief] in Hv. rewrite <- Hv.
  split; [vm_compute; discriminate | vm_compute; reflexivity].
Defined.

Lemma result_shape_and_labels_witness :
  exists r,
    outcome (calculate_tax_impact pita_2024 pita_2026 high_income) = Ok r /\
    field r "current" "label" = Some (PStr "2024 PITA") /\
    field r "proposed" "label" = Some (PStr "2026 Reform").
Proof.
  pose proof (f_equal outcome (taxable_run_result _ _ _ _ _ _ _ high_income_run))
    as Hres.
  cbn [outcome snd] in Hres.
  destruct high_income_run as (_ & H24 & H26 & _).
  eexists. split; [exact Hres | ].
  refine (proj2 (proj2
    (result_shape_and_labels pita_2024 pita_2026 high_income _ _ _ Hres))).
  - intros d Hd. rewrite H24 in Hd. injection Hd as <-. reflexivity.
  - intros d Hd. rewrite H26 in Hd. injection Hd as <-. reflexivity.
Defined.

Lemma monthly_relief_from_unrounded_difference_witness :
  exists r,
    outcome (calculate_tax_impact pita_2024 pita_2026 high_income) = Ok r /\
    field r "impact" "monthly_relief" = Some (float_val (of_Z 10000)).
Proof.
  destruct (monthly_relief_from_unrounded_difference pita_2024 pita_2026)
    as [Hrun _].
  destruct (Hrun high_income _ _ _ _ high_income_run)
    as (r & Hr & Hm & _).
  exists r. split; [exact Hr | ]. rewrite Hm. vm_compute. reflexivity.
Defined.

End TaxImpactExamples.

(** ** The regime calculator: marginal-rate properties *)

Module RegimeFacts.
Import Py Regime.
Local Open Scope Q_scope.

Lemma Qltb_true (x y : Q) : Qltb x y = true <-> x < y.
Proof.
  unfold Qltb. rewrite negb_true_iff, <- not_true_iff_false, Qle_bool_iff.
  split; [apply Qnot_le_lt | apply Qlt_not_le].
Qed.

Lemma Qltb_false (x y : Q) : Qltb x y = false <-> y <= x.
Proof. unfold Qltb. rewrite negb_false_iff. apply Qle_bool_iff. Qed.

Lemma Qmax_nonneg_l (x y : Q) : 0 <= x -> 0 <= Qmax x y.
Proof. intros H. eapply Qle_trans; [exact H | apply Q.le_max_l]. Qed.

Lemma relief_nonneg (rule : ReliefRule) (g : Q) :
  relief_rule_ok rule -> 0 <= g -> 0 <= consolidated_relief_of rule g.
Proof.
  intros (Hf & Hs & Hl) Hg. unfold consolidated_relief_of.
  pose proof (Qmax_nonneg_l (relief_floor rule) (relief_share rule * g) Hf).
  pose proof (Qmult_le_0_compat _ _ Hl Hg). lra.
Qed.

(** Income left after relief never shrinks when gross income grows. *)
Lemma taxable_income_mono (rule : ReliefRule) (g1 g2 : Q) :
  relief_rule_ok rule -> 0 <= g1 -> g1 <= g2 ->
  Qmax 0 (g1 - consolidated_relief_of rule g1) <=
  Qmax 0 (g2 - consolidated_relief_of rule g2).
Proof.
  intros (Hf & Hs & Hl) Hg1 Hle. unfold consolidated_relief_of.
  set (F := relief_floor rule) in *. set (p := relief_share rule) in *.
  set (q := relief_flat rule) in *.
  apply Q.max_lub; [apply Q.le_max_l | ].
  destruct (Qlt_le_dec 0 (g1 - (Qmax F (p * g1) + q * g1))) as [Hpos | Hneg].
  2:{ eapply Qle_trans; [exact Hneg | apply Q.le_max_l]. }
  eapply Qle_trans; [ | apply Q.le_max_r].
  pose proof (Q.le_max_l F (p * g1)) as M1.
  pose proof (Q.le_max_r F (p * g1)) as M2.
  assert (Hpq : 0 < 1 - p - q).
  { destruct (Qlt_le_dec 0 (1 - p - q)) as [H | H]; [exact H | exfalso].
    assert (0 <= (p + q - 1) * g1) by (apply Qmult_le_0_compat; lra).
    lra. }
  assert (H1 : 0 <= (1 - q) * (g2 - g1)) by (apply Qmult_le_0_compat; lra).
  assert (H2 : 0 <= (1 - p - q) * (g2 - g1)) by (apply Qmult_le_0_compat; lra).
  destruct (Q.max_spec F (p * g2)) as [[_ E] | [_ E]]; rewrite E; lra.
Qed.

Lemma band_portion_nonneg (t : Q) (b : TaxBracket) : 0 <= band_portion t b.
Proof. unfold band_portion. destruct (upper_bound b); apply Q.le_max_l. Qed.

Lemma band_portion_mono (t1 t2 : Q) (b : TaxBracket) :
  t1 <= t2 -> band_portion t1 b <= band_portion t2 b.
Proof.
  intros Hle. unfold band_portion.
  destruct (upper_bound b) as [u | ].
  - apply Q.max_le_compat_l.
    assert (Qmin t1 u <= Qmin t2 u) by (apply Q.min_le_compat_r; exact Hle).
    lra.
  - apply Q.max_le_compat_l. lra.
Qed.

(** A table that passes the configuration check has rates within 0..1. *)
Lemma contiguous_rates_ok (bands : list TaxBracket) :
  forall lo, contiguous_from lo bands = true -> rates_ok bands.
Proof.
  induction bands as [ | b rest IH]; intros lo H; [constructor | ].
  cbn [contiguous_from] in H.
  apply andb_true_iff in H. destruct H as [H Hrest].
  apply andb_true_iff in H. destruct H as [H Hr1].
  apply andb_true_iff in H. destruct H as [_ Hr0].
  apply Qle_bool_iff in Hr0, Hr1.
  constructor; [split; assumption | ].
  destruct (upper_bound b) as [u | ], rest as [ | b' rest'];
    try discriminate Hrest; [ | constructor].
  apply andb_true_iff in Hrest. destruct Hrest as [_ Hrest].
  exact (IH u Hrest).
Qed.

Lemma bracket_walk_nonneg (t : Q) (bands : list TaxBracket) :
  rates_ok bands -> 0 <= bracket_walk t bands.
Proof.
  induction 1 as [ | b rest [Hr _] _ IH]; cbn [bracket_walk]; [lra | ].
  pose proof (Qmult_le_0_compat _ _ (band_portion_nonneg t b) Hr).
  unfold band_tax. lra.
Qed.

(** The marginal-rate walk: more taxable income, no less tax. *)
Lemma bracket_walk_mono (t1 t2 : Q) (bands : list TaxBracket) :
  rates_ok bands -> t1 <= t2 -> bracket_walk t1 bands <= bracket_walk t2 bands.
Proof.
  intros Hr Hle.
  induction Hr as [ | b rest [Hr _] _ IH]; cbn [bracket_walk]; [lra | ].
  assert (band_tax t1 b <= band_tax t2 b).
  { unfold band_tax. apply Qmult_le_compat_r; [ | exact Hr].
    apply band_portion_mono. exact Hle. }
  lra.
Qed.

(** What a successful run of the calculator computed. *)
Lemma compute_inv (R : Regime) (g : Q) (r : RegimeResult) :
  compute R g = Ok r ->
  well_formed (bracket_table R) = true /\ 0 <= g /\
  gross_income r = g /\
  consolidated_relief r = consolidated_relief_of (relief_rule R) g /\
  taxable_income r = Qmax 0 (g - consolidated_relief r) /\
  annual_tax r = bracket_walk (taxable_income r) (bracket_table R) /\
  monthly_tax r = annual_tax r / 12 /\
  effective_rate r = if Qltb 0 g then annual_tax r / g else 0.
Proof.
  unfold compute.
  destruct (well_formed (bracket_table R)); cbn [negb]; [ | discriminate].
  destruct (Qltb g 0) eqn:Hg; [discriminate | ].
  apply Qltb_false in Hg. intros H. injection H as <-.
  cbn. auto 10.
Qed.

Lemma compute_total (R : Regime) (g : Q) :
  well_formed (bracket_table R) = true -> 0 <= g -> exists r, compute R g = Ok r.
Proof.
  intros Hwf Hg. unfold compute. rewrite Hwf. cbn [negb].
  apply Qltb_false in Hg. rewrite Hg. eexists. reflexivity.
Qed.

Lemma Qdiv_nonneg (x y : Q) : 0 <= x -> 0 < y -> 0 <= x / y.
Proof.
  intros Hx Hy. unfold Qdiv. apply Qmult_le_0_compat; [exact Hx | ].
  apply Qlt_le_weak, Qinv_lt_0_compat. exact Hy.
Qed.

(** C7.  For a fixed regime whose relief rule has a non-negative floor and
    percentages: the calculator returns on every non-negative gross income
    of a well-formed table; every field of a result is non-negative; and
    [annual_tax] is monotonically non-decreasing in [gross_income]. *)
Theorem annual_tax_monotone_and_nonnegative (R : Regime) :
  relief_rule_ok (relief_rule R) ->
  (forall g, well_formed (bracket_table R) = true -> 0 <= g ->
             exists r, compute R g = Ok r) /\
  (forall g r,
     compute R g = Ok r ->
     0 <= gross_income r /\ 0 <= taxable_income r /\
     0 <= consolidated_relief r /\ 0 <= annual_tax r /\
     0 <= monthly_tax r /\ 0 <= effective_rate r) /\
  (forall g1 g2 r1 r2,
     g1 <= g2 ->
     compute R g1 = Ok r1 -> compute R g2 = Ok r2 ->
     annual_tax r1 <= annual_tax r2).
Proof.
  intros Hrule. split; [ | split].
  - intros g. apply compute_total.
  - intros g r Hr. apply compute_inv in Hr.
    destruct Hr as (Hwf & Hg & Eg & Erel & Etax & Eann & Emon & Eeff).
    pose proof (contiguous_rates_ok _ _ Hwf) as Hrates.
    assert (Hann : 0 <= annual_tax r)
      by (rewrite Eann; apply bracket_walk_nonneg; exact Hrates).
    rewrite Eg, Etax, Emon, Eeff, Erel.
    split; [exact Hg | ].
    split; [apply Q.le_max_l | ].
    split; [apply relief_nonneg; assumption | ].
    split; [exact Hann | ].
    split; [apply Qdiv_nonneg; [exact Hann | reflexivity] | ].
    destruct (Qltb 0 g) eqn:Hpos; [ | apply Qle_refl].
    apply Qdiv_nonneg; [exact Hann | ]. apply Qltb_true. exact Hpos.
  - intros g1 g2 r1 r2 Hle H1 H2.
    apply compute_inv in H1, H2.
    destruct H1 as (Hwf & Hg1 & _ & Erel1 & Etax1 & Eann1 & _).
    destruct H2 as (_ & _ & _ & Erel2 & Etax2 & Eann2 & _).
    rewrite Eann1, Eann2, Etax1, Etax2, Erel1, Erel2.
    apply bracket_walk_mono; [exact (contiguous_rates_ok _ _ Hwf) | ].
    apply taxable_income_mono; assumption.
Qed.

Lemma relief_2024_ok : relief_rule_ok relief_2024.
Proof. unfold relief_rule_ok, relief_2024; cbn. repeat split; discriminate. Qed.

Lemma annual_tax_monotone_and_nonnegative_witness :
  relief_rule_ok (relief_rule sample_regime) /\
  (exists r1 r2,
     compute sample_regime 6000000 = Ok r1 /\
     compute sample_regime 7200000 = Ok r2 /\
     annual_tax r1 <= annual_tax r2 /\ 0 <= annual_tax r1).
Proof.
  split; [exact relief_2024_ok | ].
  destruct (annual_tax_monotone_and_nonnegative sample_regime relief_2024_ok)
    as (_ & Hnonneg & Hmono).
  eexists _, _. split; [reflexivity | ]. split; [reflexivity | ].
  split.
  - apply (Hmono 6000000 7200000); [discriminate | reflexivity | reflexivity].
  - apply (Hnonneg 6000000 _ eq_refl).
Defined.

End RegimeFacts.

(** ** More float facts: subtraction and division at the edges *)

Module PyFloatEdge.
Import PyFloat TaxEngine.

Lemma sub_nan_l (y : float) : sub S754_nan y = S754_nan.
Proof. reflexivity. Qed.

Lemma sub_nan_r (x : float) : sub x S754_nan = S754_nan.
Proof. destruct x; reflexivity. Qed.

(** [t - t] is [+0.0] for every finite [t]. *)
Lemma sub_diag_finite (t : float) : is_finite t = true -> sub t t = zero.
Proof.
  destruct t as [s | s | | s m e]; cbn [is_finite]; intros H; try discriminate H.
  - destruct s; reflexivity.
  - unfold sub, SFsub. rewrite Z.sub_diag. reflexivity.
Qed.

(** [+0.0 / t] is [+0.0] for a positive finite [t]. *)
Lemma div_zero_positive (t : float) :
  gt t (of_Z 0) = true -> is_finite t = true -> div zero t = zero.
Proof.
  destruct t as [s | s | | s m e]; cbn [is_finite]; intros Hpos Hfin;
    try discriminate Hfin.
  - discriminate Hpos.
  - destruct s; [discriminate Hpos | reflexivity].
Qed.

(** Rounding to the format commutes with a change of sign. *)
Lemma binary_round_aux_opp (s : bool) (m e : Z) (l : location) :
  SFopp (binary_round_aux prec emax s m e l) =
  binary_round_aux prec emax (negb s) m e l.
Proof.
  unfold binary_round_aux.
  destruct (shr_fexp prec emax m e l) as [mrs' e'].
  destruct (shr_fexp prec emax _ e' loc_Exact) as [mrs'' e''].
  destruct (shr_m mrs''); cbn [SFopp]; try reflexivity.
  destruct (e'' <=? emax - prec); reflexivity.
Qed.

Lemma binary_normalize_opp (z e : Z) :
  z <> 0%Z ->
  SFopp (binary_normalize prec emax z e false) =
  binary_normalize prec emax (- z) e false.
Proof.
  destruct z as [ | p | p]; intros Hz; [congruence | | ].
  - change (- Z.pos p)%Z with (Z.neg p). unfold binary_normalize, binary_round.
    destruct (shl_align p e _) as [mz ez]. apply binary_round_aux_opp.
  - change (- Z.neg p)%Z with (Z.pos p). unfold binary_normalize, binary_round.
    destruct (shl_align p e _) as [mz ez]. apply binary_round_aux_opp.
Qed.

(** [y - x] is the opposite of [x - y], unless the difference is a zero
    (then both are [+0.0], or the signed zero of the operands). *)
Lemma sub_swap (x y : float) :
  is_zero (sub x y) = false -> sub y x = SFopp (sub x y).
Proof.
  destruct x as [sx | sx | | sx mx ex], y as [sy | sy | | sy my ey];
    try reflexivity;
    try (destruct sx, sy; first [reflexivity | discriminate]).
  unfold sub, SFsub. intros Hnz.
  rewrite (Z.min_comm ey ex).
  set (a := cond_Zopp sx (Z.pos (fst (shl_align mx ex (Z.min ex ey))))) in *.
  set (b := cond_Zopp sy (Z.pos (fst (shl_align my ey (Z.min ex ey))))) in *.
  replace (b - a)%Z with (- (a - b))%Z by ring.
  symmetry. apply binary_normalize_opp.
  intros Hz. rewrite Hz in Hnz. discriminate Hnz.
Qed.

(** Dividing by twelve and rounding to two decimals are odd functions. *)
Lemma div_12_opp (x : float) :
  div (SFopp x) (of_Z 12) = SFopp (div x (of_Z 12)).
Proof.
  change (of_Z 12) with (S754_finite false 6755399441055744 (-49)).
  destruct x as [s | s | | s m e];
    [destruct s; reflexivity | destruct s; reflexivity | reflexivity | ].
  unfold div, SFdiv. cbn [SFopp].
  destruct (SFdiv_core_binary prec emax (Z.pos m) e _ _) as [[mz ez] lz].
  rewrite binary_round_aux_opp. destruct s; reflexivity.
Qed.

Lemma round2_opp (x : float) : round2 (SFopp x) = SFopp (round2 x).
Proof.
  destruct x as [s | s | | s m e]; [reflexivity | reflexivity | reflexivity | ].
  cbn [SFopp round2].
  destruct (round_half_even (Z.pos m * 100) e) as [ | n | n]; try reflexivity.
  unfold SFdiv.
  destruct (SFdiv_core_binary prec emax (Z.pos n) 0 _ _) as [[mz ez] lz].
  rewrite binary_round_aux_opp. destruct s; reflexivity.
Qed.

End PyFloatEdge.

(** ** The engine at its edges: failures, foreign keys, degenerate taxes *)

Module TaxImpactEdge.
Import PyFloat Py TaxEngine PyFloatFacts PyFloatEdge TaxEngineFacts.
Local Open Scope string_scope.

Section Edges.
Variable calculate_pita_2024 calculate_pita_2026 : float -> result regime_dict.

Local Abbreviation calculate_tax_impact :=
  (calculate_tax_impact calculate_pita_2024 calculate_pita_2026).
Local Abbreviation taxable_run :=
  (taxable_run calculate_pita_2024 calculate_pita_2026).

(** The run through the taxable branch, once more, for this section. *)
Lemma taxable_outcome (x : float) (cur pro : regime_dict) (ct pt : float) :
  taxable_run x cur pro ct pt ->
  calculate_tax_impact x =
  ([Call2024 (mul x (of_Z 12)); Call2026 (mul x (of_Z 12))],
   Ok (assemble x (mul x (of_Z 12)) (taxable_locals cur pro ct pt))).
Proof.
  intros (Hgt & H24 & H26 & Hct & Hpt).
  apply impact_of_branches. now apply branches_taxable.
Qed.

(** X1.  An exception of a regime calculator reaches the caller
    unchanged.  When the 2024 calculator raises, the 2026 calculator is
    never called; when the 2026 calculator raises, both have been
    called. *)
Theorem calculator_errors_propagate (x : float) (e : exn) :
  gt (mul x (of_Z 12)) threshold = true ->
  (calculate_pita_2024 (mul x (of_Z 12)) = Raise e ->
   calculate_tax_impact x = ([Call2024 (mul x (of_Z 12))], Raise e)) /\
  (forall cur,
     calculate_pita_2024 (mul x (of_Z 12)) = Ok cur ->
     calculate_pita_2026 (mul x (of_Z 12)) = Raise e ->
     calculate_tax_impact x =
     ([Call2024 (mul x (of_Z 12)); Call2026 (mul x (of_Z 12))], Raise e)).
Proof.
  intros Hgt. split.
  - intros H24.
    unfold TaxEngine.calculate_tax_impact, TaxEngine.branches, call_2024.
    rewrite Hgt, H24. reflexivity.
  - intros cur H24 H26.
    unfold TaxEngine.calculate_tax_impact, TaxEngine.branches, call_2024, call_2026.
    rewrite Hgt, H24, H26. reflexivity.
Qed.

(** X2.  A calculator answer without ["annual_tax"] makes the run raise
    [KeyError("annual_tax")], after both calculators were called. *)
Theorem missing_annual_tax_raises_key_error (x : float) (cur pro : regime_dict) :
  gt (mul x (of_Z 12)) threshold = true ->
  calculate_pita_2024 (mul x (of_Z 12)) = Ok cur ->
  calculate_pita_2026 (mul x (of_Z 12)) = Ok pro ->
  cur !! "annual_tax" = None \/ pro !! "annual_tax" = None ->
  calculate_tax_impact x =
  ([Call2024 (mul x (of_Z 12)); Call2026 (mul x (of_Z 12))],
   Raise (KeyError "annual_tax")).
Proof.
  intros Hgt H24 H26 Hmiss.
  unfold TaxEngine.calculate_tax_impact, TaxEngine.branches,
    call_2024, call_2026, getitem.
  rewrite Hgt, H24, H26. cbn [bind ret raise].
  destruct (cur !! "annual_tax") as [ct | ] eqn:Hct; [ | reflexivity].
  destruct Hmiss as [Hmiss | Hmiss]; [discriminate Hmiss | ].
  rewrite Hmiss. reflexivity.
Qed.

(** X3.  The outcomes of a run, classified.  The run returns exactly when
    the income is not above the threshold or both calculators answer
    with an ["annual_tax"].  When it raises, the income is above the
    threshold and the exception is one a calculator raised or
    [KeyError("annual_tax")]: the engine never fails on the exemption
    branch and never divides by zero. *)
Theorem outcome_classification (x : float) :
  ((exists r, outcome (calculate_tax_impact x) = Ok r) <->
   gt (mul x (of_Z 12)) threshold = false \/
   exists cur pro ct pt, taxable_run x cur pro ct pt) /\
  (forall e,
     outcome (calculate_tax_impact x) = Raise e ->
     gt (mul x (of_Z 12)) threshold = true /\
     (calculate_pita_2024 (mul x (of_Z 12)) = Raise e \/
      calculate_pita_2026 (mul x (of_Z 12)) = Raise e \/
      e = KeyError "annual_tax")).
Proof.
  split; [split | ].
  - intros [r Hr]. apply impact_inv in Hr. destruct Hr as (v & Hv & _).
    apply branches_inv in Hv.
    destruct Hv as [[Hgt _] | (Hgt & cur & pro & ct & pt & H24 & H26 & Hct & Hpt & _)].
    + left. exact Hgt.
    + right. exists cur, pro, ct, pt. unfold TaxEngine.taxable_run. auto.
  - intros [Hgt | (cur & pro & ct & pt & Hrun)].
    + eexists. rewrite (impact_of_branches _ _ _ _ _ (branches_exempt _ _ _ Hgt)).
      reflexivity.
    + eexists. rewrite (taxable_outcome _ _ _ _ _ Hrun). reflexivity.
  - intros e.
    unfold TaxEngine.calculate_tax_impact, TaxEngine.branches,
      call_2024, call_2026, getitem, truediv.
    generalize (mul x (of_Z 12)) as a. intros a.
    destruct (gt a threshold); [ | discriminate].
    destruct (calculate_pita_2024 a) as [cur | e1];
      [ | cbn [bind outcome snd]; intros [= ->]; auto].
    destruct (calculate_pita_2026 a) as [pro | e2];
      [ | cbn [bind outcome snd]; intros [= ->]; auto].
    cbn [bind ret raise].
    destruct (cur !! "annual_tax") as [ct | ];
      [ | cbn [bind outcome snd app]; intros [= <-]; auto].
    destruct (pro !! "annual_tax") as [pt | ];
      [ | cbn [bind outcome snd app]; intros [= <-]; auto].
    cbn [bind ret raise].
    change (is_zero (of_Z 12)) with false. cbn [bind ret raise].
    destruct (gt ct (of_Z 0)) eqn:Hpos; [ | discriminate].
    cbn [bind ret raise].
    rewrite (gt_zero_nonzero ct Hpos). discriminate.
Qed.

(** X4.  The calculator's dictionary is spread after the label: when an
    answer brings a ["label"] of its own, that value ends up in the
    result and the engine's "2024 PITA" / "2026 Reform" is lost. *)
Theorem calculator_label_replaces_engine_label
    (x : float) (cur pro : regime_dict) (ct pt : float) :
  taxable_run x cur pro ct pt ->
  exists r,
    outcome (calculate_tax_impact x) = Ok r /\
    (forall v, cur !! "label" = Some v ->
               field r "current" "label" = Some (float_val v)) /\
    (forall v, pro !! "label" = Some v ->
               field r "proposed" "label" = Some (float_val v)).
Proof.
  intros Hrun. rewrite (taxable_outcome _ _ _ _ _ Hrun).
  eexists. split; [reflexivity | ].
  unfold field. rewrite assemble_current, assemble_proposed.
  cbn [taxable_locals current proposed]. unfold labelled.
  split; intros v Hv; rewrite lookup_union, lookup_fmap, Hv; reflexivity.
Qed.

(** X5.  Every field of a calculator's answer is forwarded as it is,
    unrounded, under the same key; the engine adds the label and
    nothing else, and it does not compare the answer's [gross_income]
    with [annual_income]. *)
Theorem calculator_fields_pass_through
    (x : float) (cur pro : regime_dict) (ct pt : float) :
  taxable_run x cur pro ct pt ->
  exists r c p,
    outcome (calculate_tax_impact x) = Ok r /\
    subdict r "current" = Some c /\
    subdict r "proposed" = Some p /\
    (forall k, k <> "label" ->
               c !! k = float_val <$> cur !! k /\
               p !! k = float_val <$> pro !! k) /\
    dom c = {[ "label" ]} ∪ dom cur /\
    dom p = {[ "label" ]} ∪ dom pro.
Proof.
  intros Hrun. rewrite (taxable_outcome _ _ _ _ _ Hrun).
  eexists _, _, _. split; [reflexivity | ].
  split; [apply assemble_current | ].
  split; [apply assemble_proposed | ].
  cbn [taxable_locals current proposed].
  split.
  - intros k Hk. split; apply labelled_lookup_ne; exact Hk.
  - unfold labelled.
    rewrite !dom_union_L, !dom_fmap_L, !dom_singleton_L.
    split; apply (comm_L (∪)).
Qed.

(** X6.  When both calculators report the same finite annual tax, the
    impact is zero throughout: [annual_relief] and [monthly_relief] are
    [0.0], and [percentage_change] is [0.0] for a positive tax (the int
    [0] for a tax that is not positive). *)
Theorem equal_taxes_give_zero_impact
    (x : float) (cur pro : regime_dict) (t : float) :
  taxable_run x cur pro t t ->
  is_finite t = true ->
  exists r,
    outcome (calculate_tax_impact x) = Ok r /\
    subdict r "impact" =
      Some {[ "monthly_relief" := float_val zero;
              "annual_relief" := float_val zero;
              "percentage_change" :=
                if gt t (of_Z 0) then float_val zero else PNum (NInt 0) ]}.
Proof.
  intros Hrun Hfin. rewrite (taxable_outcome _ _ _ _ _ Hrun).
  eexists. split; [reflexivity | ].
  rewrite assemble_impact.
  cbn [taxable_locals monthly_relief annual_relief percentage_change].
  rewrite (sub_diag_finite t Hfin).
  destruct (gt t (of_Z 0)) eqn:Hpos.
  - rewrite (div_zero_positive t Hpos Hfin). reflexivity.
  - reflexivity.
Qed.

(** X8.  A NaN tax is not an error.  With a NaN current tax the run
    returns NaN for both reliefs and the int [0] for the percentage (NaN
    is not [> 0]); with a NaN proposed tax both reliefs are NaN as
    well. *)
Theorem nan_tax_gives_nan_relief
    (x : float) (cur pro : regime_dict) (ct pt : float) :
  taxable_run x cur pro ct pt ->
  exists r,
    outcome (calculate_tax_impact x) = Ok r /\
    (ct = S754_nan ->
     subdict r "impact" =
       Some {[ "monthly_relief" := float_val S754_nan;
               "annual_relief" := float_val S754_nan;
               "percentage_change" := PNum (NInt 0) ]}) /\
    (pt = S754_nan ->
     field r "impact" "monthly_relief" = Some (float_val S754_nan) /\
     field r "impact" "annual_relief" = Some (float_val S754_nan)).
Proof.
  intros Hrun. rewrite (taxable_outcome _ _ _ _ _ Hrun).
  eexists. split; [reflexivity | ].
  unfold field. rewrite assemble_impact.
  cbn [taxable_locals monthly_relief annual_relief percentage_change].
  split.
  - intros ->. reflexivity.
  - intros ->. rewrite sub_nan_r. split; reflexivity.
Qed.

(** X10.  Every returned result is consistent with itself, on both
    branches: its [impact.annual_relief] and [impact.monthly_relief] are
    what rounding gives from the [annual_tax] entries it carries under
    [current] and [proposed]. *)
Theorem relief_matches_the_returned_taxes (x : float) (r : gmap string pyval) :
  outcome (calculate_tax_impact x) = Ok r ->
  exists ct pt,
    field r "current" "annual_tax" = Some (float_val ct) /\
    field r "proposed" "annual_tax" = Some (float_val pt) /\
    field r "impact" "annual_relief" = Some (float_val (round2 (sub ct pt))) /\
    field r "impact" "monthly_relief" =
      Some (float_val (round2 (div (sub ct pt) (of_Z 12)))).
Proof.
  intros Hr. apply impact_inv in Hr. destruct Hr as (v & Hv & ->).
  apply branches_inv in Hv.
  destruct Hv as [[Hgt ->] | (Hgt & cur & pro & ct & pt & _ & _ & Hct & Hpt & ->)].
  - exists zero, zero. repeat (split; [reflexivity | ]). reflexivity.
  - exists ct, pt. unfold field.
    rewrite assemble_current, assemble_proposed, assemble_impact.
    cbn [taxable_locals current proposed].
    rewrite !labelled_lookup_ne by discriminate. rewrite Hct, Hpt.
    repeat (split; [reflexivity | ]). reflexivity.
Qed.

End Edges.

(** X7.  The impact figures depend on the two annual taxes only: two runs,
    on any incomes and with any calculators, whose answers agree on the two
    ["annual_tax"] values return the same [impact] record, whatever the
    other fields of the answers say. *)
Theorem impact_depends_only_on_annual_tax
    (c24 c26 c24' c26' : float -> result regime_dict) (x x' : float)
    (cur pro cur' pro' : regime_dict) (ct pt : float) :
  TaxEngine.taxable_run c24 c26 x cur pro ct pt ->
  TaxEngine.taxable_run c24' c26' x' cur' pro' ct pt ->
  exists r r',
    outcome (calculate_tax_impact c24 c26 x) = Ok r /\
    outcome (calculate_tax_impact c24' c26' x') = Ok r' /\
    subdict r "impact" = subdict r' "impact".
Proof.
  intros Hrun Hrun'.
  rewrite (taxable_outcome _ _ _ _ _ _ _ Hrun), (taxable_outcome _ _ _ _ _ _ _ Hrun').
  eexists _, _. split; [reflexivity | ]. split; [reflexivity | ].
  rewrite !assemble_impact. reflexivity.
Qed.

(** X9.  Swapping the roles of the two regimes negates the relief: when
    one run sees the annual taxes [(ct, pt)] and another [(pt, ct)], and
    the taxes differ, [annual_relief] and [monthly_relief] of the second
    are the opposites of those of the first, also after rounding. *)
Theorem swapping_regimes_negates_relief
    (c24 c26 c24' c26' : float -> result regime_dict) (x x' : float)
    (cur pro cur' pro' : regime_dict) (ct pt : float) :
  TaxEngine.taxable_run c24 c26 x cur pro ct pt ->
  TaxEngine.taxable_run c24' c26' x' cur' pro' pt ct ->
  is_zero (sub ct pt) = false ->
  exists r r' a m,
    outcome (calculate_tax_impact c24 c26 x) = Ok r /\
    outcome (calculate_tax_impact c24' c26' x') = Ok r' /\
    field r "impact" "annual_relief" = Some (float_val a) /\
    field r' "impact" "annual_relief" = Some (float_val (SFopp a)) /\
    field r "impact" "monthly_relief" = Some (float_val m) /\
    field r' "impact" "monthly_relief" = Some (float_val (SFopp m)).
Proof.
  intros Hrun Hrun' Hnz.
  rewrite (taxable_outcome _ _ _ _ _ _ _ Hrun), (taxable_outcome _ _ _ _ _ _ _ Hrun').
  eexists _, _, _, _. split; [reflexivity | ]. split; [reflexivity | ].
  unfold field. rewrite !assemble_impact.
  cbn [taxable_locals monthly_relief annual_relief percentage_change].
  rewrite (sub_swap ct pt Hnz), div_12_opp.
  cbn [round_2]. rewrite !round2_opp.
  repeat (split; [reflexivity | ]). reflexivity.
Qed.

End TaxImpactEdge.

(** ** The question loop of the evaluation script *)

Module EvaluationFacts.
Import Evaluation.
Local Open Scope nat_scope.
Local Open Scope list_scope.

Section Exam.
Variable World Exn : Type.
Variable ask_question : World -> string -> string -> World * (Exn + string).

Local Abbreviation take_exam := (take_exam World Exn ask_question).
Local Abbreviation exam := (exam World).

(** The loop keeps the contexts in step with the answers, adds at most
    one answer per question, and logs two events per question asked. *)
Lemma take_exam_invariant (qs : list string) :
  forall (st st' : exam) (err : option Exn),
    take_exam qs st = (st', err) ->
    exists new,
      actual_answers _ st' = actual_answers _ st ++ new /\
      retrieved_contexts _ st' =
        retrieved_contexts _ st ++ map (fun a => [a]) new /\
      length new <= length qs /\
      (err = None ->
       length new = length qs /\
       log _ st' = log _ st ++ flat_map asking qs).
Proof.
  induction qs as [ | q rest IH]; intros st st' err H; cbn [Evaluation.take_exam] in H.
  - injection H as <- <-. exists [].
    cbn [map length flat_map]. rewrite !app_nil_r. auto.
  - destruct (ask_question (world _ st) q "eval_user"%string) as [w [e | a]].
    + injection H as <- <-. exists [].
      cbn [actual_answers retrieved_contexts map length].
      rewrite !app_nil_r.
      split; [reflexivity | ]. split; [reflexivity | ].
      split; [lia | discriminate].
    + apply IH in H. destruct H as (new & Ha & Hc & Hlen & Hok).
      cbn [actual_answers retrieved_contexts log] in Ha, Hc, Hok.
      exists (a :: new).
      rewrite Ha, Hc, <- !app_assoc. cbn [app map length flat_map].
      split; [reflexivity | ]. split; [reflexivity | ].
      split; [lia | ].
      intros He. destruct (Hok He) as [Hl Hlog].
      split; [lia | ].
      rewrite Hlog, <- app_assoc. reflexivity.
Qed.

(** Running the loop over [qs1 ++ qs2] is running it over [qs1] and,
    unless that failed, over [qs2] from where it stopped. *)
Lemma take_exam_app (qs1 qs2 : list string) :
  forall st : exam,
    take_exam (qs1 ++ qs2) st =
    match take_exam qs1 st with
    | (st1, None) => take_exam qs2 st1
    | failed => failed
    end.
Proof.
  induction qs1 as [ | q rest IH]; intros st; cbn [app Evaluation.take_exam];
    [reflexivity | ].
  destruct (ask_question (world _ st) q "eval_user"%string) as [w [e | a]];
    [reflexivity | apply IH].
Qed.

(** X11.  The grader's contexts are the assistant's own answers: however
    the loop ends, [retrieved_contexts] is the list of the one-element
    lists [[a]] of the answers [a] collected; and when no question
    failed there is exactly one answer per question, asked in order with
    [user_id = "eval_user"%string], each announced by one printed line. *)
Theorem contexts_are_the_answers
    (qs : list string) (w : World) (st' : exam) (err : option Exn) :
  take_exam qs (start _ w) = (st', err) ->
  retrieved_contexts _ st' = map (fun a => [a]) (actual_answers _ st') /\
  length (actual_answers _ st') <= length qs /\
  (err = None ->
   length (actual_answers _ st') = length qs /\
   log _ st' = flat_map asking qs).
Proof.
  intros H. apply take_exam_invariant in H.
  destruct H as (new & Ha & Hc & Hlen & Hok).
  cbn [start actual_answers retrieved_contexts log app] in Ha, Hc, Hok.
  rewrite Ha, Hc.
  split; [reflexivity | ]. split; [exact Hlen | ].
  intros He. destruct (Hok He) as [Hl Hlog]. split; assumption.
Qed.

(** X12.  The first exception of the assistant ends the exam: the
    questions after the failing one are never asked (and never printed),
    and the answers kept are those given before it. *)
Theorem exam_stops_at_first_failure
    (qs1 qs2 : list string) (q : string) (st st1 : exam) (w : World) (e : Exn) :
  take_exam qs1 st = (st1, None) ->
  ask_question (world _ st1) q "eval_user"%string = (w, inl e) ->
  take_exam (qs1 ++ q :: qs2) st =
  ({| world := w;
      log := log _ st ++ flat_map asking (qs1 ++ [q]);
      actual_answers := actual_answers _ st1;
      retrieved_contexts := retrieved_contexts _ st1 |}, Some e).
Proof.
  intros H1 Hq. rewrite take_exam_app, H1. cbn [Evaluation.take_exam].
  rewrite Hq.
  apply take_exam_invariant in H1. destruct H1 as (new & _ & _ & _ & Hok).
  destruct (Hok eq_refl) as [_ Hlog].
  rewrite Hlog, flat_map_app, <- app_assoc. cbn [flat_map]. rewrite app_nil_r.
  reflexivity.
Qed.

(** X13.  When the exam over the script's three questions completes, the
    four columns of the dataset have three entries each, and row [i] of
    [contexts] holds row [i] of [answer] alone. *)
Theorem dataset_columns_aligned (w : World) (st' : exam) :
  take_exam data_question (start _ w) = (st', None) ->
  length (question (eval_dataset _ st')) = 3%nat /\
  length (answer (eval_dataset _ st')) = 3%nat /\
  length (contexts (eval_dataset _ st')) = 3%nat /\
  length (ground_truth (eval_dataset _ st')) = 3%nat /\
  forall i a, answer (eval_dataset _ st') !! i = Some a ->
              contexts (eval_dataset _ st') !! i = Some [a].
Proof.
  intros H. apply take_exam_invariant in H.
  destruct H as (new & Ha & Hc & _ & Hok).
  destruct (Hok eq_refl) as [Hl _].
  cbn [start actual_answers retrieved_contexts app] in Ha, Hc.
  cbn [eval_dataset question answer contexts ground_truth].
  rewrite Ha, Hc, length_map, Hl.
  split; [reflexivity | ]. split; [reflexivity | ].
  split; [reflexivity | ]. split; [reflexivity | ].
  intros i a Hi. rewrite list_lookup_fmap, Hi. reflexivity.
Qed.

End Exam.

End EvaluationFacts.

(** ** The edges on concrete runs *)

Module TaxImpactEdgeExamples.
Import PyFloat Py TaxEngine StandIn Probe TaxImpactEdge.
Local Open Scope string_scope.

Lemma high_income_taxable : gt (mul high_income (of_Z 12)) threshold = true.
Proof. vm_compute. reflexivity. Defined.

(** A run of the engine on two [answering] calculators. *)
Lemma probe_run (d1 d2 : regime_dict) (ct pt : float) :
  d1 !! "annual_tax" = Some ct ->
  d2 !! "annual_tax" = Some pt ->
  taxable_run (answering d1) (answering d2) high_income d1 d2 ct pt.
Proof.
  intros H1 H2. unfold taxable_run, answering.
  split; [exact high_income_taxable | auto].
Defined.

Lemma with_label_tax (l t : float) : with_label l t !! "annual_tax" = Some t.
Proof. reflexivity. Defined.

Lemma with_label_label (l t : float) : with_label l t !! "label" = Some l.
Proof. reflexivity. Defined.

Lemma tax_only_tax (t : float) : tax_only t !! "annual_tax" = Some t.
Proof. reflexivity. Defined.

Lemma calculator_errors_propagate_witness :
  calculate_tax_impact (failing InvalidInputError) pita_2026 high_income =
    ([Call2024 (mul high_income (of_Z 12))], Raise InvalidInputError) /\
  calculate_tax_impact pita_2024 (failing ConfigurationError) high_income =
    ([Call2024 (mul high_income (of_Z 12)); Call2026 (mul high_income (of_Z 12))],
     Raise ConfigurationError).
Proof.
  split.
  - apply (proj1 (calculator_errors_propagate (failing InvalidInputError) pita_2026
                    high_income InvalidInputError high_income_taxable)).
    reflexivity.
  - apply (proj2 (calculator_errors_propagate pita_2024 (failing ConfigurationError)
                    high_income ConfigurationError high_income_taxable)
             (flat_answer (of_ratio 7 100) (mul high_income (of_Z 12)))).
    + replace (mul high_income (of_Z 12)) with (of_Z 6000000)
        by (vm_compute; reflexivity).
      reflexivity.
    + reflexivity.
Defined.

Lemma missing_annual_tax_raises_key_error_witness :
  calculate_tax_impact (answering (tax_only (of_Z 100))) (answering ∅) high_income =
    ([Call2024 (mul high_income (of_Z 12)); Call2026 (mul high_income (of_Z 12))],
     Raise (KeyError "annual_tax")).
Proof.
  apply (missing_annual_tax_raises_key_error
           (answering (tax_only (of_Z 100))) (answering ∅) high_income
           (tax_only (of_Z 100)) ∅ high_income_taxable eq_refl eq_refl).
  right. apply lookup_empty.
Defined.

Lemma outcome_classification_witness :
  (exists r, outcome (calculate_tax_impact pita_2024 pita_2026 low_income) = Ok r) /\
  forall e,
    outcome (calculate_tax_impact (answering ∅) (answering ∅) high_income) = Raise e ->
    e = KeyError "annual_tax".
Proof.
  split.
  - apply (proj1 (outcome_classification pita_2024 pita_2026 low_income)).
    left. vm_compute. reflexivity.
  - intros e He.
    destruct (proj2 (outcome_classification (answering ∅) (answering ∅) high_income)
                e He) as (_ & [H | [H | H]]).
    + discriminate H.
    + discriminate H.
    + exact H.
Defined.

Lemma calculator_label_replaces_engine_label_witness :
  exists r,
    outcome (calculate_tax_impact (answering (with_label (of_Z 7) (of_Z 100)))
               (answering (tax_only (of_Z 60))) high_income) = Ok r /\
    field r "current" "label" = Some (float_val (of_Z 7)) /\
    field r "current" "label" <> Some (PStr "2024 PITA").
Proof.
  destruct (calculator_label_replaces_engine_label _ _ high_income _ _ _ _
              (probe_run _ _ _ _ (with_label_tax (of_Z 7) (of_Z 100))
                 (tax_only_tax (of_Z 60))))
    as (r & Hr & Hcur & _).
  exists r. split; [exact Hr | ].
  rewrite (Hcur _ (with_label_label (of_Z 7) (of_Z 100))).
  split; [reflexivity | discriminate].
Defined.

Lemma calculator_fields_pass_through_witness :
  exists r c,
    outcome (calculate_tax_impact (answering (tax_only (of_ratio 123456 1000)))
               (answering (tax_only (of_Z 60))) high_income) = Ok r /\
    subdict r "current" = Some c /\
    c !! "annual_tax" = Some (float_val (of_ratio 123456 1000)) /\
    c !! "gross_income" = None.
Proof.
  destruct (calculator_fields_pass_through _ _ high_income _ _ _ _
              (probe_run _ _ _ _ (tax_only_tax (of_ratio 123456 1000))
                 (tax_only_tax (of_Z 60))))
    as (r & c & p & Hr & Hc & _ & Hfwd & _).
  exists r, c. split; [exact Hr | ]. split; [exact Hc | ].
  split.
  - rewrite (proj1 (Hfwd "annual_tax" ltac:(discriminate))). reflexivity.
  - rewrite (proj1 (Hfwd "gross_income" ltac:(discriminate))). reflexivity.
Defined.

Lemma equal_taxes_give_zero_impact_witness :
  is_finite (of_Z 100) = true /\
  exists r,
    outcome (calculate_tax_impact (answering (tax_only (of_Z 100)))
               (answering (tax_only (of_Z 100))) high_income) = Ok r /\
    field r "impact" "percentage_change" = Some (float_val zero).
Proof.
  split; [reflexivity | ].
  destruct (equal_taxes_give_zero_impact _ _ high_income _ _ _
              (probe_run _ _ _ _ (tax_only_tax (of_Z 100)) (tax_only_tax (of_Z 100)))
              eq_refl)
    as (r & Hr & Himp).
  exists r. split; [exact Hr | ]. unfold field. rewrite Himp. reflexivity.
Defined.

Lemma impact_depends_only_on_annual_tax_witness :
  exists r r',
    outcome (calculate_tax_impact (answering (tax_only (of_Z 100)))
               (answering (tax_only (of_Z 60))) high_income) = Ok r /\
    outcome (calculate_tax_impact (answering (with_label (of_Z 7) (of_Z 100)))
               (answering (with_label (of_Z 8) (of_Z 60))) high_income) = Ok r' /\
    subdict r "impact" = subdict r' "impact".
Proof.
  exact (impact_depends_only_on_annual_tax _ _ _ _ high_income high_income _ _ _ _ _ _
           (probe_run _ _ _ _ (tax_only_tax (of_Z 100)) (tax_only_tax (of_Z 60)))
           (probe_run _ _ _ _ (with_label_tax (of_Z 7) (of_Z 100))
              (with_label_tax (of_Z 8) (of_Z 60)))).
Defined.

Lemma nan_tax_gives_nan_relief_witness :
  exists r,
    outcome (calculate_tax_impact (answering (tax_only S754_nan))
               (answering (tax_only (of_Z 60))) high_income) = Ok r /\
    field r "impact" "annual_relief" = Some (float_val S754_nan) /\
    field r "impact" "percentage_change" = Some (PNum (NInt 0)).
Proof.
  destruct (nan_tax_gives_nan_relief _ _ high_income _ _ _ _
              (probe_run _ _ _ _ (tax_only_tax S754_nan) (tax_only_tax (of_Z 60))))
    as (r & Hr & Hnan & _).
  exists r. split; [exact Hr | ]. unfold field. rewrite (Hnan eq_refl).
  split; reflexivity.
Defined.

Lemma swapping_regimes_negates_relief_witness :
  is_zero (sub (of_Z 100) (of_Z 60)) = false /\
  exists r r' a,
    outcome (calculate_tax_impact (answering (tax_only (of_Z 100)))
               (answering (tax_only (of_Z 60))) high_income) = Ok r /\
    outcome (calculate_tax_impact (answering (tax_only (of_Z 60)))
               (answering (tax_only (of_Z 100))) high_income) = Ok r' /\
    field r "impact" "annual_relief" = Some (float_val a) /\
    field r' "impact" "annual_relief" = Some (float_val (SFopp a)).
Proof.
  split; [reflexivity | ].
  destruct (swapping_regimes_negates_relief _ _ _ _ high_income high_income _ _ _ _ _ _
              (probe_run _ _ _ _ (tax_only_tax (of_Z 100)) (tax_only_tax (of_Z 60)))
              (probe_run _ _ _ _ (tax_only_tax (of_Z 60)) (tax_only_tax (of_Z 100)))
              eq_refl)
    as (r & r' & a & m & Hr & Hr' & Ha & Ha' & _).
  exists r, r', a. auto.
Defined.

Lemma relief_matches_the_returned_taxes_witness :
  exists r ct pt,
    outcome (calculate_tax_impact pita_2024 pita_2026 low_income) = Ok r /\
    field r "current" "annual_tax" = Some (float_val ct) /\
    field r "proposed" "annual_tax" = Some (float_val pt) /\
    field r "impact" "annual_relief" = Some (float_val (round2 (sub ct pt))).
Proof.
  assert (Hr : outcome (calculate_tax_impact pita_2024 pita_2026 low_income) =
               Ok (assemble low_income (mul low_income (of_Z 12))
                     (exempt_locals (mul low_income (of_Z 12))))).
  { rewrite (TaxEngineFacts.impact_of_branches _ _ _ _ _
               (TaxEngineFacts.branches_exempt _ _ (mul low_income (of_Z 12))
                  ltac:(vm_compute; reflexivity))).
    reflexivity. }
  destruct (relief_matches_the_returned_taxes pita_2024 pita_2026 low_income _ Hr)
    as (ct & pt & Hc & Hp & Ha & _).
  eexists _, ct, pt. split; [exact Hr | ]. auto.
Defined.

End TaxImpactEdgeExamples.

(** ** The question loop on concrete assistants *)

Module EvaluationExamples.
Import Evaluation EvaluationFacts.
Local Open Scope nat_scope.
Local Open Scope list_scope.

Lemma contexts_are_the_answers_witness :
  exists st,
    take_exam nat string echo data_question (start nat 0) = (st, None) /\
    length (actual_answers nat st) = 3 /\
    retrieved_contexts nat st = map (fun a => [a]) (actual_answers nat st).
Proof.
  eexists. split; [reflexivity | ].
  destruct (contexts_are_the_answers nat string echo data_question 0 _ None eq_refl)
    as (Hc & _ & Hok).
  split; [exact (proj1 (Hok eq_refl)) | exact Hc].
Defined.

Lemma exam_stops_at_first_failure_witness :
  exists st,
    take_exam nat string tired data_question (start nat 0) =
      (st, Some "quota exceeded"%string) /\
    length (actual_answers nat st) = 1 /\
    length (log nat st) = 4.
Proof.
  eexists. split.
  - apply (exam_stops_at_first_failure nat string tired
             [ "How is the Consolidated Relief Allowance calculated in 2024?"%string ]
             [ "Calculate the tax impact for a monthly income of 500,000 naira."%string ]
             "What is the tax rate for someone earning 300,000 naira annually?"%string
             (start nat 0)); reflexivity.
  - split; reflexivity.
Defined.

Lemma dataset_columns_aligned_witness :
  exists st,
    take_exam nat string echo data_question (start nat 0) = (st, None) /\
    length (answer (eval_dataset nat st)) = 3 /\
    length (contexts (eval_dataset nat st)) = 3.
Proof.
  eexists. split; [reflexivity | ].
  destruct (dataset_columns_aligned nat string echo 0 _ eq_refl)
    as (_ & Ha & Hc & _).
  split; [exact Ha | exact Hc].
Defined.

End EvaluationExamples.
